(** * olo: operator tables, rendering helpers and operation mixins

    A shallow embedding of the expression-building core of olo:
    - [olo/utils.py]: the operator precedence table, the negation tables,
      [get_neg_operator], [get_operator_precedence],
      [compare_operator_precedence], [sql_and_params] and
      [get_sql_pieces_and_params];
    - [olo/mixins/operations.py]: [UnaryOperationMixin] and
      [BinaryOperationMixin].

    Python dictionaries are finite maps ([gmap string _]), Python integers
    are [Z], Python 2 byte strings are [string]s of 8-bit characters. *)

From Stdlib Require Import ZArith Ascii String List Bool Lia.
From stdpp Require Import base option list strings pretty gmap fin_maps.

Local Open Scope string_scope.
Local Open Scope Z_scope.

(** ** Python 2 byte-string methods used by the source *)

Module PyStr.

(** [c.upper()] on one byte (C locale): the letters a..z move to A..Z,
    every other byte is unchanged. *)
Definition upper_char (c : ascii) : ascii :=
  let n := N_of_ascii c in
  if ((97 <=? n)%N && (n <=? 122)%N)%bool then ascii_of_N (n - 32) else c.

(** [s.upper()] *)
Fixpoint upper (s : string) : string :=
  match s with
  | EmptyString => EmptyString
  | String c s' => String (upper_char c) (upper s')
  end.

(** [c.isspace()] on one byte (C locale): space, \t, \n, \v, \f, \r. *)
Definition isspace (c : ascii) : bool :=
  let n := N_of_ascii c in
  ((n =? 32)%N || ((9 <=? n)%N && (n <=? 13)%N))%bool.

(** [s.lstrip()] *)
Fixpoint lstrip (s : string) : string :=
  match s with
  | EmptyString => EmptyString
  | String c s' => if isspace c then lstrip s' else s
  end.

(** [s.rstrip()] *)
Fixpoint rstrip (s : string) : string :=
  match s with
  | EmptyString => EmptyString
  | String c s' =>
      match rstrip s' with
      | EmptyString => if isspace c then EmptyString else String c EmptyString
      | r => String c r
      end
  end.

(** [s.strip()] *)
Definition strip (s : string) : string := rstrip (lstrip s).

(** [s] consists of whitespace only. *)
Fixpoint all_space (s : string) : bool :=
  match s with
  | EmptyString => true
  | String c s' => isspace c && all_space s'
  end.

(** [s] is not empty and its first byte is whitespace. *)
Definition starts_space (s : string) : bool :=
  match s with
  | EmptyString => false
  | String c _ => isspace c
  end.

(** [s] is not empty and its last byte is whitespace. *)
Fixpoint ends_space (s : string) : bool :=
  match s with
  | EmptyString => false
  | String c EmptyString => isspace c
  | String _ s' => ends_space s'
  end.

(** [c.lower()] on one byte (C locale): the letters A..Z move to a..z. *)
Definition lower_char (c : ascii) : ascii :=
  let n := N_of_ascii c in
  if ((65 <=? n)%N && (n <=? 90)%N)%bool then ascii_of_N (n + 32) else c.

(** [s.lower()] *)
Fixpoint lower (s : string) : string :=
  match s with
  | EmptyString => EmptyString
  | String c s' => String (lower_char c) (lower s')
  end.

(** The character classes [[A-Z]], [[a-z]] and [[0-9]] of [re]. *)
Definition is_AZ (c : ascii) : bool :=
  let n := N_of_ascii c in ((65 <=? n)%N && (n <=? 90)%N)%bool.

Definition is_az (c : ascii) : bool :=
  let n := N_of_ascii c in ((97 <=? n)%N && (n <=? 122)%N)%bool.

Definition is_09 (c : ascii) : bool :=
  let n := N_of_ascii c in ((48 <=? n)%N && (n <=? 57)%N)%bool.

(** The class [.] of [re] without the DOTALL flag: any byte but \n. *)
Definition is_dot (c : ascii) : bool :=
  negb (N_of_ascii c =? 10)%N.

(** [s.split(' ', 1)[0]]: the bytes before the first space, all of [s]
    when it has no space. *)
Fixpoint split_space_head (s : string) : string :=
  match s with
  | EmptyString => EmptyString
  | String c s' =>
      if (N_of_ascii c =? 32)%N then EmptyString
      else String c (split_space_head s')
  end.

(** Some byte of [s] is whitespace. *)
Fixpoint has_space (s : string) : bool :=
  match s with
  | EmptyString => false
  | String c s' => isspace c || has_space s'
  end.

(** Some byte of [s] is an upper-case letter. *)
Fixpoint has_AZ (s : string) : bool :=
  match s with
  | EmptyString => false
  | String c s' => is_AZ c || has_AZ s'
  end.

(** [s] without its underscores. *)
Fixpoint drop_underscores (s : string) : string :=
  match s with
  | EmptyString => EmptyString
  | String c s' =>
      if (N_of_ascii c =? 95)%N then drop_underscores s'
      else String c (drop_underscores s')
  end.

End PyStr.

(** ** Python built-ins over sequences *)

(** [enumerate(l)], with indices as Python integers. *)
Fixpoint enumerate_from {A : Type} (i : Z) (l : list A) : list (Z * A) :=
  match l with
  | [] => []
  | x :: l' => (i, x) :: enumerate_from (i + 1) l'
  end.

Definition enumerate {A : Type} (l : list A) : list (Z * A) :=
  enumerate_from 0 l.

(** A dictionary display or comprehension: the items are stored in
    iteration order, a later item replacing an earlier one with the same
    key. *)
Definition dict_of_items {V : Type} (items : list (string * V)) : gmap string V :=
  foldl (fun d kv => <[kv.1 := kv.2]> d) ∅ items.

(** [dict(d, **kw)]: a copy of [d] updated with the keyword items, which win
    on a shared key. *)
Definition dict_with {V : Type} (d kw : gmap string V) : gmap string V :=
  kw ∪ d.

(** ** The precedence table *)

Definition _OPERATOR_PRECEDENCES : list (list string) :=
  [ ["*"; "/"; "%"; "DIV"; "MOD"];
    ["-"; "+"];
    ["<<"; ">>"];
    ["="; "!="; ">"; "<"; ">="; "<="; "IN"; "IS"; "IS NOT"; "NOT IN"];
    ["BETWEEN"; "CASE"];
    ["AND"; "&&"];
    ["OR"; "||"] ].

(** [{item: idx for idx, items in enumerate(reversed(_OPERATOR_PRECEDENCES))
           for item in items}] *)
Definition OPERATOR_PRECEDENCES : gmap string Z :=
  dict_of_items
    (flat_map (fun '(idx, items) => map (fun item => (item, idx)) items)
              (enumerate (reverse _OPERATOR_PRECEDENCES))).

(** ** The negation tables *)

(** [{v: k for k, v in d.iteritems()}] *)
Definition dict_inverse (d : gmap string string) : gmap string string :=
  dict_of_items (map (fun kv => (kv.2, kv.1)) (map_to_list d)).

(** The first binding of [UNARY_NEG_OPERATOR]. *)
Definition UNARY_NEG_OPERATOR_base : gmap string string :=
  dict_of_items [ ("-", "+") ].

(** The second binding, which is the one the functions below read. *)
Definition UNARY_NEG_OPERATOR : gmap string string :=
  dict_with (dict_inverse UNARY_NEG_OPERATOR_base) UNARY_NEG_OPERATOR_base.

(** The first binding of [BINARY_NEG_OPERATOR]. *)
Definition BINARY_NEG_OPERATOR_base : gmap string string :=
  dict_of_items
    [ ("IN", "NOT IN");
      ("IS", "IS NOT");
      ("=", "!=");
      (">", "<=");
      ("<", ">=") ].

(** The second binding, which is the one the functions below read. *)
Definition BINARY_NEG_OPERATOR : gmap string string :=
  dict_with (dict_inverse BINARY_NEG_OPERATOR_base) BINARY_NEG_OPERATOR_base.

(** [d.get(op)] is [d !! op], Python's [None] being [None]. *)
Definition get_neg_operator (op : string) (is_unary : bool) : option string :=
  let op := PyStr.upper (PyStr.strip op) in
  if is_unary then UNARY_NEG_OPERATOR !! op
  else BINARY_NEG_OPERATOR !! op.

(** [OPERATOR_PRECEDENCES.get(operator, -1)] *)
Definition get_operator_precedence (operator : string) : Z :=
  default (-1) (OPERATOR_PRECEDENCES !! operator).

Definition compare_operator_precedence (a b : string) : Z :=
  let ap := get_operator_precedence (PyStr.upper a) in
  let bp := get_operator_precedence (PyStr.upper b) in
  if ap =? bp then 0
  else if ap >? bp then 1
  else -1.

(** ** Values *)

(** Modelled from the spec: the classes reached as [self.UnaryExpression] and
    [self.BinaryExpression] are defined outside the two modules embedded
    here.  Following the data model, a node records the arguments of its
    constructor: [{operand, operator}] and [{left, right, operator}]. *)
#[warnings="-register-all"] Inductive value : Type :=
| PyNone
| PyInt (n : Z)
| PyString (s : string)
| PyList (items : list value)
| UnaryExpression (operand : value) (operator : string)
| BinaryExpression (left right : value) (operator : string).

(** [v is None] *)
Definition is_None (v : value) : bool :=
  match v with
  | PyNone => true
  | _ => false
  end.

(** The truth value of a list: [if l:]. *)
Definition list_truthy {A : Type} (l : list A) : bool :=
  match l with
  | [] => false
  | _ :: _ => true
  end.

(** ** Rendering helpers *)

Section Rendering.

(** The attribute [get_sql_and_params] of a value: [None] when
    [hasattr(v, 'get_sql_and_params')] is false, and otherwise the pair
    that calling it returns.  The classes that define the method are
    outside the two modules embedded here. *)
Variable get_sql_and_params : value -> option (string * list value).

(** The built-in [str], the default of the [coerce] arguments. *)
Variable str : value -> string.

Definition sql_and_params (v : value) (coerce : value -> string)
  : string * list value :=
  match get_sql_and_params v with
  | Some r => r
  | None => (coerce v, [])
  end.

(** One round of the loop of [get_sql_pieces_and_params], on the two
    accumulators.  The call in the body is [sql_and_params(exp)]: its
    second argument is left to its default, [str]. *)
Definition pieces_step (acc : list string * list value) (exp : value)
  : list string * list value :=
  let '(pieces, params) := acc in
  let '(piece, _params) := sql_and_params exp str in
  let pieces := (pieces ++ [piece])%list in
  let params :=
    if list_truthy _params then (params ++ _params)%list else params in
  (pieces, params).

Definition get_sql_pieces_and_params (exps : list value)
  (coerce : value -> string) : list string * list value :=
  foldl pieces_step ([], []) exps.

(** What one element adds to the pieces: its own text. *)
Definition piece_of (exp : value) : string :=
  match get_sql_and_params exp with
  | Some r => r.1
  | None => str exp
  end.

(** What one element adds to the parameters. *)
Definition params_of (exp : value) : list value :=
  match get_sql_and_params exp with
  | Some r => r.2
  | None => []
  end.

End Rendering.

(** The built-in [str] on [None], integers and byte strings.  What it
    prints for an instance of a class is decided by that class, so the
    functions above take [str] as an argument; this instance serves the
    examples, which apply it to literals only. *)
Definition str_literal (v : value) : string :=
  match v with
  | PyNone => "None"
  | PyInt n => pretty n
  | PyString s => s
  | _ => "<object>"
  end.

(** A world in which no value has the attribute [get_sql_and_params]. *)
Definition no_render : value -> option (string * list value) :=
  fun _ => None.

(** A world in which exactly the expression nodes have the attribute; the
    text is the operator and the parameters are the non-expression operands
    from left to right. *)
Fixpoint sample_render (v : value) : option (string * list value) :=
  let operand_params (o : value) : list value :=
    match sample_render o with
    | Some r => r.2
    | None => [o]
    end in
  match v with
  | UnaryExpression operand operator => Some (operator, operand_params operand)
  | BinaryExpression lhs rhs operator =>
      Some (operator, (operand_params lhs ++ operand_params rhs)%list)
  | _ => None
  end.

(** ** [olo/mixins/operations.py] *)

Module UnaryOperationMixin.

Definition desc (self : value) : value := UnaryExpression self "DESC".

Definition asc (self : value) : value := UnaryExpression self "ASC".

End UnaryOperationMixin.

Module BinaryOperationMixin.

Definition __add__ (self other : value) : value :=
  BinaryExpression self other "+".

Definition __radd__ : value -> value -> value := __add__.

Definition __sub__ (self other : value) : value :=
  BinaryExpression self other "-".

Definition __rsub__ : value -> value -> value := __sub__.

Definition __mul__ (self other : value) : value :=
  BinaryExpression self other "*".

Definition __div__ (self other : value) : value :=
  BinaryExpression self other "/".

Definition __mod__ (self other : value) : value :=
  BinaryExpression self other "%".

Definition __eq__ (self other : value) : value :=
  let operator := "=" in
  let operator := if is_None other then "IS" else operator in
  BinaryExpression self other operator.

Definition __ne__ (self other : value) : value :=
  let operator := "!=" in
  let operator := if is_None other then "IS NOT" else operator in
  BinaryExpression self other operator.

Definition __gt__ (self other : value) : value :=
  BinaryExpression self other ">".

Definition __ge__ (self other : value) : value :=
  BinaryExpression self other ">=".

Definition __lt__ (self other : value) : value :=
  BinaryExpression self other "<".

Definition __le__ (self other : value) : value :=
  BinaryExpression self other "<=".

Definition in_ (self other : value) : value :=
  BinaryExpression self other "IN".

Definition __lshift__ : value -> value -> value := in_.

Definition not_in_ (self other : value) : value :=
  BinaryExpression self other "NOT IN".

Definition like_ (self other : value) : value :=
  BinaryExpression self other "LIKE".

Definition ilike_ (self other : value) : value :=
  BinaryExpression self other "ILIKE".

Definition regexp_ (self other : value) : value :=
  BinaryExpression self other "REGEXP".

Definition between_ (self other : value) : value :=
  BinaryExpression self other "BETWEEN".

Definition concat_ (self other : value) : value :=
  BinaryExpression self other "||".

Definition is_ (self other : value) : value :=
  BinaryExpression self other "IS".

Definition is_not_ (self other : value) : value :=
  BinaryExpression self other "IS NOT".

End BinaryOperationMixin.

(** ** The tables, entry by entry *)

Definition precedence_entries : list (string * Z) :=
  [ ("OR", 0); ("||", 0); ("AND", 1); ("&&", 1); ("BETWEEN", 2); ("CASE", 2);
    ("=", 3); ("!=", 3); (">", 3); ("<", 3); (">=", 3); ("<=", 3);
    ("IN", 3); ("IS", 3); ("IS NOT", 3); ("NOT IN", 3);
    ("<<", 4); (">>", 4); ("-", 5); ("+", 5);
    ("*", 6); ("/", 6); ("%", 6); ("DIV", 6); ("MOD", 6) ].

Definition binary_neg_entries : list (string * string) :=
  [ ("IN", "NOT IN"); ("NOT IN", "IN");
    ("IS", "IS NOT"); ("IS NOT", "IS");
    ("=", "!="); ("!=", "=");
    (">", "<="); ("<=", ">");
    ("<", ">="); (">=", "<") ].

Definition unary_neg_entries : list (string * string) :=
  [ ("-", "+"); ("+", "-") ].

(** The entries of the table that [get_neg_operator] reads for [is_unary]. *)
Definition neg_entries (is_unary : bool) : list (string * string) :=
  if is_unary then unary_neg_entries else binary_neg_entries.

Definition neg_table (is_unary : bool) : gmap string string :=
  if is_unary then UNARY_NEG_OPERATOR else BINARY_NEG_OPERATOR.

(** ** [camel2underscore] *)

(** [re.sub('(.)([A-Z][a-z]+)', r'\1_\2', name)].  The scan goes from left
    to right.  Where a byte other than \n is followed by an upper-case
    letter and at least one lower-case letter, the match takes these and the
    whole run of lower-case letters that follows, an underscore is put after
    the first byte, and the scan resumes behind the match; [in_run] says
    that the scan is still inside the lower-case run of a match.  Any other
    byte is copied. *)
Fixpoint sub_word (in_run : bool) (name : string) : string :=
  match name with
  | EmptyString => EmptyString
  | String c rest =>
      if in_run && PyStr.is_az c then String c (sub_word true rest)
      else
        match rest with
        | String u (String l rest') =>
            if PyStr.is_dot c && PyStr.is_AZ u && PyStr.is_az l
            then String c (String "_" (String u (String l (sub_word true rest'))))
            else String c (sub_word false rest)
        | _ => String c (sub_word false rest)
        end
  end.

(** [re.sub('([a-z0-9])([A-Z])', r'\1_\2', s1)]: a lower-case letter or
    digit followed by an upper-case letter is a match, and the scan resumes
    behind the two bytes. *)
Fixpoint sub_hump (s1 : string) : string :=
  match s1 with
  | EmptyString => EmptyString
  | String c rest =>
      match rest with
      | String u rest' =>
          if (PyStr.is_az c || PyStr.is_09 c) && PyStr.is_AZ u
          then String c (String "_" (String u (sub_hump rest')))
          else String c (sub_hump rest)
      | EmptyString => String c EmptyString
      end
  end.

Definition camel2underscore (name : string) : string :=
  let s1 := sub_word false name in
  PyStr.lower (sub_hump s1).

(** ** The mixins against the tables *)

(** On every receiver and operand, [f] and [g] build nodes whose operators
    are the negation of each other in the binary table. *)
Definition negation_pair (f g : value -> value -> value) : Prop :=
  forall x v : value,
    exists op op' : string,
      f x v = BinaryExpression x v op
      ∧ g x v = BinaryExpression x v op'
      ∧ get_neg_operator op false = Some op'
      ∧ get_neg_operator op' false = Some op.

(** On every receiver and operand, [f] builds a node whose operator has no
    negation in the binary table. *)
Definition no_negation (f : value -> value -> value) : Prop :=
  forall x v : value,
    exists op : string,
      f x v = BinaryExpression x v op ∧ get_neg_operator op false = None.

(** On every receiver and operand, [f] builds a node whose operator has
    precedence [t]. *)
Definition builds_tier (f : value -> value -> value) (t : Z) : Prop :=
  forall x v : value,
    exists op : string,
      f x v = BinaryExpression x v op ∧ get_operator_precedence op = t.

(** ** Objects of [type_checker] and of the cached properties *)

(** The classes of the objects below; [TMissing] is the class [Missing] of
    this module. *)
Inductive pytype : Type :=
| TObject | TType | TNoneType | TBool | TInt | TStr
| TList | TTuple | TDict | TMissing.

(** Objects: [None], booleans, plain integers, byte strings, classes, lists,
    tuples, dictionaries (their items in iteration order) and instances of
    [Missing], told apart by their identity. *)
#[warnings="-register-all"] Inductive pyobj : Type :=
| VNone
| VBool (b : bool)
| VInt (n : Z)
| VStr (s : string)
| VType (t : pytype)
| VList (elems : list pyobj)
| VTuple (elems : list pyobj)
| VDict (items : list (pyobj * pyobj))
| VMissing (id : positive).

Definition pytype_eqb (a b : pytype) : bool :=
  match a, b with
  | TObject, TObject | TType, TType | TNoneType, TNoneType | TBool, TBool
  | TInt, TInt | TStr, TStr | TList, TList | TTuple, TTuple | TDict, TDict
  | TMissing, TMissing => true
  | _, _ => false
  end.

(** [type(v)] *)
Definition type_of (v : pyobj) : pytype :=
  match v with
  | VNone => TNoneType
  | VBool _ => TBool
  | VInt _ => TInt
  | VStr _ => TStr
  | VType _ => TType
  | VList _ => TList
  | VTuple _ => TTuple
  | VDict _ => TDict
  | VMissing _ => TMissing
  end.

(** [issubclass(a, b)]: every class derives from [object], and [bool] from
    [int]. *)
Definition issubclass (a b : pytype) : bool :=
  pytype_eqb a b
  || pytype_eqb b TObject
  || (pytype_eqb a TBool && pytype_eqb b TInt).

(** [isinstance(v, t)] for a class [t] *)
Definition isinstance (v : pyobj) (t : pytype) : bool :=
  issubclass (type_of v) t.

(** ** [type_checker] *)

(** The loop [for i, e in enumerate(v): r = check(type_[i], e); if not r:
    return False] of the tuple case, left with [True]; the two sequences
    have the same length there. *)
Fixpoint check_each (check : pyobj -> pyobj -> bool) (spec elems : list pyobj)
  : bool :=
  match spec, elems with
  | s :: spec', e :: elems' =>
      if negb (check s e) then false else check_each check spec' elems'
  | _, _ => true
  end.

Fixpoint type_checker (type_ v : pyobj) {struct type_} : bool :=
  if match type_ with
     | VType cls => isinstance v cls
     | _ => false
     end
  then true
  else
    let t := type_of type_ in
    if negb (pytype_eqb t (type_of v)) then false
    else
      match type_ with
      | VList spec =>
          match spec with
          | [] => isinstance v t
          | _t :: _ =>
              match v with
              | VList elems => forallb (type_checker _t) elems
              | _ => false
              end
          end
      | VTuple spec =>
          match v with
          | VTuple elems =>
              if negb (length spec =? length elems)%nat then false
              else check_each type_checker spec elems
          | _ => false
          end
      | VDict items =>
          match items with
          | [] => isinstance v t
          | (kt, vt) :: _ =>
              match v with
              | VDict entries =>
                  forallb (fun kv => negb (negb (type_checker kt kv.1)
                                           || negb (type_checker vt kv.2)))
                          entries
              | _ => false
              end
          end
      | _ => false
      end.

(** ** [Missing] and the cached properties *)

(** [v is w] for an instance [w] of [Missing]: the same object. *)
Definition is_same_missing (v w : pyobj) : bool :=
  match v, w with
  | VMissing i, VMissing j => Pos.eqb i j
  | _, _ => false
  end.

Module Missing.

(** [isinstance(other, self.__class__)] *)
Definition __eq__ (self other : pyobj) : bool := isinstance other TMissing.

Definition __ne__ (self other : pyobj) : bool := negb (__eq__ self other).

Definition __nonzero__ (self : pyobj) : bool := false.

Definition __bool__ : pyobj -> bool := __nonzero__.

End Missing.

(** [missing = Missing()], the instance made when the module is loaded. *)
Definition missing : pyobj := VMissing 1.

(** A function of one argument, an instance given by its [__dict__]: its
    name, and the value it returns together with the [__dict__] it leaves
    behind. *)
Record pyfunction : Type := {
  func_name : string;
  func_call : gmap string pyobj -> pyobj * gmap string pyobj
}.

Module cached_property.

Record t : Type := {
  __name__ : string;
  func : pyfunction
}.

(** What [__get__] returns: the descriptor itself, or a value, with the
    [__dict__] of the instance afterwards. *)
Inductive got : Type :=
| Descriptor (self : t)
| Value (value : pyobj) (obj : gmap string pyobj).

(** [name or func.__name__], a name being false when it is empty. *)
Definition __init__ (func : pyfunction) (name : option string) : t :=
  {| __name__ := match name with
                 | Some (String c n) => String c n
                 | _ => func_name func
                 end;
     func := func |}.

Definition __set__ (self : t) (obj : gmap string pyobj) (value : pyobj)
  : gmap string pyobj :=
  <[__name__ self := value]> obj.

Definition __get__ (self : t) (obj : option (gmap string pyobj)) : got :=
  match obj with
  | None => Descriptor self
  | Some obj =>
      let value := default missing (obj !! __name__ self) in
      if is_same_missing value missing then
        let '(value, obj) := func_call (func self) obj in
        let obj := <[__name__ self := value]> obj in
        Value value obj
      else Value value obj
  end.

End cached_property.

(** The getter of [readonly_cached_property(func)].

    The instance is given by its [__dict__], which is all the getter reads.
    [setattr] stands for the built-in: what the call
    [setattr(self, name, value)] leaves in the [__dict__].  For an instance
    of an ordinary class that is the [__dict__] with the item stored; a class
    with [__slots__], with a descriptor under that name or with a
    [__setattr__] of its own may leave anything else.  Both [func] and
    [setattr] are taken to return.  The value returned is [None] when the
    final subscript [self.__dict__[attr_name]] finds no item, where Python
    raises KeyError. *)
Section ReadonlyCachedProperty.

Variable setattr :
  gmap string pyobj -> string -> pyobj -> gmap string pyobj.

Definition readonly_cached_property (func : pyfunction)
    (self : gmap string pyobj) : option pyobj * gmap string pyobj :=
  let attr_name := "_" +:+ func_name func in
  let self :=
    match self !! attr_name with
    | None =>
        let '(value, self) := func_call func self in
        setattr self attr_name value
    | Some _ => self
    end in
  (self !! attr_name, self).

End ReadonlyCachedProperty.

(** [setattr] on an instance of an ordinary class: the item is stored in the
    [__dict__]. *)
Definition object_setattr (obj : gmap string pyobj) (name : string)
    (value : pyobj) : gmap string pyobj :=
  <[name := value]> obj.

(** [setattr] on an instance whose class keeps the attribute elsewhere, in
    a slot for one: the [__dict__] is left as it is. *)
Definition slot_setattr (obj : gmap string pyobj) (name : string)
    (value : pyobj) : gmap string pyobj :=
  obj.

(** ** [parse_execute_sql] *)

Inductive re_flag : Type := re_I | re_S.

(** What a call returns or raises. *)
Inductive outcome (A : Type) : Type :=
| Return (result : A)
| Raise (message : string).
Arguments Return {A} result.
Arguments Raise {A} message.

Section ParseExecuteSql.

(** The compiled patterns of the module [re]: [re.compile(pattern, flags)],
    and for [pattern.match(sql)] the group [table] of the match, [None]
    when there is no match. *)
Variable regex : Type.
Variable re_compile : string -> list re_flag -> regex.
Variable re_match_table : regex -> string -> option string.

Definition SQL_PATTERNS : gmap string regex :=
  dict_of_items
    [ ("select", re_compile "select\s.*?\sfrom\s+`?(?P<table>\w+)`?"
                            [re_I; re_S]);
      ("insert", re_compile "insert\s+(ignore\s+)?(into\s+)?`?(?P<table>\w+)`?"
                            [re_I]);
      ("update", re_compile "update\s+(ignore\s+)?`?(?P<table>\w+)`?\s+set"
                            [re_I]);
      ("replace", re_compile "replace\s+(into\s+)?`?(?P<table>\w+)`?" [re_I]);
      ("delete", re_compile "delete\s+from\s+`?(?P<table>\w+)`?" [re_I]) ].

Definition parse_execute_sql (sql : string) : outcome (string * string) :=
  let sql := PyStr.lstrip sql in
  let cmd := PyStr.lower (PyStr.split_space_head sql) in
  match SQL_PATTERNS !! cmd with
  | None => Raise ("SQL command " +:+ cmd +:+ " is not yet supported")
  | Some pattern =>
      match re_match_table pattern sql with
      | None => Raise sql
      | Some table => Return (cmd, table)
      end
  end.

End ParseExecuteSql.

(** A function that counts its calls in the attribute [calls] and returns
    the count. *)
Definition counting_function (name : string) : pyfunction :=
  {| func_name := name;
     func_call := fun obj =>
       let n := match obj !! "calls" with
                | Some (VInt n) => n + 1
                | _ => 1
                end in
       (VInt n, <["calls" := VInt n]> obj) |}.

(** A matcher that finds the table [t] in every statement. *)
Definition sample_match (pattern : string * list re_flag) (sql : string)
  : option string := Some "t".

(** * Facts *)

Example strip_ex : PyStr.strip "  not in
 " = "not in".
Proof. reflexivity. Qed.

Lemma OPERATOR_PRECEDENCES_entries :
  OPERATOR_PRECEDENCES = list_to_map precedence_entries.
Proof. reflexivity. Qed.

Lemma precedence_entries_NoDup : NoDup (precedence_entries.*1).
Proof. apply (bool_decide_unpack _). vm_compute. reflexivity. Qed.

Lemma OPERATOR_PRECEDENCES_lookup (op : string) (v : Z) :
  OPERATOR_PRECEDENCES !! op = Some v <-> (op, v) ∈ precedence_entries.
Proof.
  rewrite OPERATOR_PRECEDENCES_entries.
  symmetry. apply elem_of_list_to_map, precedence_entries_NoDup.
Qed.

Lemma BINARY_NEG_OPERATOR_entries :
  BINARY_NEG_OPERATOR = list_to_map binary_neg_entries.
Proof. reflexivity. Qed.

Lemma UNARY_NEG_OPERATOR_entries :
  UNARY_NEG_OPERATOR = list_to_map unary_neg_entries.
Proof. reflexivity. Qed.

Example str_literal_ex :
  map str_literal [PyNone; PyInt 0; PyInt 42; PyInt (-5); PyString "a b"]
  = ["None"; "0"; "42"; "-5"; "a b"].
Proof. reflexivity. Qed.

Example sample_render_ex :
  sample_render (BinaryOperationMixin.__eq__
                 (BinaryOperationMixin.__add__ (PyInt 1) (PyInt 2)) (PyInt 3))
  = Some ("=", [PyInt 1; PyInt 2; PyInt 3]).
Proof. reflexivity. Qed.

(** ** Byte-string facts *)

Lemma upper_char_idemp (c : ascii) :
  PyStr.upper_char (PyStr.upper_char c) = PyStr.upper_char c.
Proof.
  destruct c as [[] [] [] [] [] [] [] []]; reflexivity.
Qed.

Lemma upper_idemp (s : string) : PyStr.upper (PyStr.upper s) = PyStr.upper s.
Proof.
  induction s as [|c s IH]; simpl; [reflexivity|].
  by rewrite upper_char_idemp, IH.
Qed.

(** [lstrip] removes a run of whitespace from the front and stops at the
    first byte that is not whitespace. *)
Lemma lstrip_spec (s : string) :
  exists ws : string,
    s = ws +:+ PyStr.lstrip s
    ∧ PyStr.all_space ws = true
    ∧ PyStr.starts_space (PyStr.lstrip s) = false.
Proof.
  induction s as [|c s (ws & Heq & Hws & Hst)]; simpl.
  - by exists EmptyString.
  - destruct (PyStr.isspace c) eqn:Hc.
    + exists (String c ws). repeat split.
      * change (String c s = String c (ws +:+ PyStr.lstrip s)).
        by rewrite <- Heq.
      * simpl. by rewrite Hc, Hws.
      * done.
    + exists EmptyString. simpl. by rewrite Hc.
Qed.

(** [rstrip] removes a run of whitespace from the back and stops at the
    last byte that is not whitespace. *)
Lemma rstrip_spec (s : string) :
  exists ws : string,
    s = PyStr.rstrip s +:+ ws
    ∧ PyStr.all_space ws = true
    ∧ PyStr.ends_space (PyStr.rstrip s) = false.
Proof.
  induction s as [|c s (ws & Heq & Hws & Hend)]; simpl.
  - by exists EmptyString.
  - destruct (PyStr.rstrip s) as [|c' r] eqn:Hr.
    + change (s = ws) in Heq. subst s. destruct (PyStr.isspace c) eqn:Hc.
      * exists (String c ws). simpl. by rewrite Hc, Hws.
      * exists ws. simpl. by rewrite Hc.
    + exists ws. repeat split; [|done..].
      change (String c s = String c (String c' r +:+ ws)).
      by rewrite <- Heq.
Qed.

Lemma rstrip_starts_space (s : string) :
  PyStr.starts_space s = false -> PyStr.starts_space (PyStr.rstrip s) = false.
Proof.
  destruct s as [|c s]; simpl; [done|]. intros Hc.
  destruct (PyStr.rstrip s); [|done]. by rewrite Hc.
Qed.

(** [strip] cuts the longest runs of whitespace off both ends. *)
Lemma strip_spec (s : string) :
  exists l r : string,
    s = l +:+ PyStr.strip s +:+ r
    ∧ PyStr.all_space l = true ∧ PyStr.all_space r = true
    ∧ PyStr.starts_space (PyStr.strip s) = false
    ∧ PyStr.ends_space (PyStr.strip s) = false.
Proof.
  destruct (lstrip_spec s) as (l & Hl & Hls & Hst).
  destruct (rstrip_spec (PyStr.lstrip s)) as (r & Hr & Hrs & Hend).
  exists l, r. unfold PyStr.strip. repeat split; try done.
  - rewrite Hl at 1. f_equal. exact Hr.
  - by apply rstrip_starts_space.
Qed.

(** ** The precedence table *)

Lemma precedence_entries_Forall :
  Forall (fun kv : string * Z => PyStr.upper kv.1 = kv.1 ∧ 0 <= kv.2 <= 6)
         precedence_entries.
Proof. apply (bool_decide_unpack _). vm_compute. reflexivity. Qed.

Lemma precedence_key_facts (op : string) (v : Z) :
  OPERATOR_PRECEDENCES !! op = Some v ->
  PyStr.upper op = op ∧ 0 <= v <= 6.
Proof.
  rewrite OPERATOR_PRECEDENCES_lookup. intros Hin.
  pose proof precedence_entries_Forall as HF.
  rewrite Forall_forall in HF. exact (HF _ Hin).
Qed.

(** A spelling whose upper-case form is not a key is not a key either. *)
Lemma precedence_upper_None (op : string) :
  OPERATOR_PRECEDENCES !! PyStr.upper op = None ->
  OPERATOR_PRECEDENCES !! op = None.
Proof.
  intros Hup. destruct (OPERATOR_PRECEDENCES !! op) as [v|] eqn:Hop; [|done].
  destruct (precedence_key_facts _ _ Hop) as [Heq _].
  rewrite Heq in Hup. congruence.
Qed.

Lemma get_operator_precedence_Some (op : string) (v : Z) :
  OPERATOR_PRECEDENCES !! op = Some v -> get_operator_precedence op = v.
Proof. unfold get_operator_precedence. by intros ->. Qed.

Lemma get_operator_precedence_None (op : string) :
  OPERATOR_PRECEDENCES !! op = None -> get_operator_precedence op = -1.
Proof. unfold get_operator_precedence. by intros ->. Qed.

Lemma get_operator_precedence_range (op : string) :
  -1 <= get_operator_precedence op <= 6.
Proof.
  unfold get_operator_precedence.
  destruct (OPERATOR_PRECEDENCES !! op) as [v|] eqn:Hop; simpl; [|lia].
  apply precedence_key_facts in Hop. lia.
Qed.

(** The comparison is the sign of the difference of the two tiers, each
    looked up at the upper-case spelling. *)
Lemma compare_operator_precedence_sgn (a b : string) :
  compare_operator_precedence a b =
  Z.sgn (get_operator_precedence (PyStr.upper a)
         - get_operator_precedence (PyStr.upper b)).
Proof.
  unfold compare_operator_precedence.
  generalize (get_operator_precedence (PyStr.upper a)) as ap.
  generalize (get_operator_precedence (PyStr.upper b)) as bp.
  intros bp ap.
  destruct (Z.eqb_spec ap bp) as [->|Hne].
  - by rewrite Z.sub_diag.
  - destruct (Z.gtb_spec ap bp); lia.
Qed.

(** C2: the table built by the comprehension holds exactly the entries of the
    seven tiers: OR and || at 0, AND and && at 1, BETWEEN and CASE at 2, the
    comparison and membership operators at 3, the shifts at 4, - and + at 5,
    and * / % DIV MOD at 6; and of two operators of different tiers the one
    with the higher integer compares as binding tighter. *)
Theorem precedence_table_tiers (op : string) (v : Z) :
  (OPERATOR_PRECEDENCES !! op = Some v <->
     (op ∈ ["OR"; "||"] ∧ v = 0)
     ∨ (op ∈ ["AND"; "&&"] ∧ v = 1)
     ∨ (op ∈ ["BETWEEN"; "CASE"] ∧ v = 2)
     ∨ (op ∈ ["="; "!="; ">"; "<"; ">="; "<="; "IN"; "IS"; "IS NOT"; "NOT IN"]
        ∧ v = 3)
     ∨ (op ∈ ["<<"; ">>"] ∧ v = 4)
     ∨ (op ∈ ["-"; "+"] ∧ v = 5)
     ∨ (op ∈ ["*"; "/"; "%"; "DIV"; "MOD"] ∧ v = 6))
  ∧ (forall a b : string,
        compare_operator_precedence a b = 1 <->
        get_operator_precedence (PyStr.upper a)
        > get_operator_precedence (PyStr.upper b)).
Proof.
  split.
  - rewrite OPERATOR_PRECEDENCES_lookup. unfold precedence_entries.
    rewrite !list_elem_of_In. cbn [In].
    split.
    + intros H. repeat (destruct H as [H|H]; [injection H as <- <-; tauto|]).
      destruct H.
    + intros H.
      repeat (destruct H as [H|H]);
        destruct H as [H ->];
        repeat (destruct H as [H|H]; [subst op; tauto|]); destruct H.
  - intros a b. rewrite compare_operator_precedence_sgn. lia.
Qed.

(** C5: the comparison is antisymmetric and reflexive, takes its values in
    -1, 0 and 1, is 0 exactly when the two tiers are equal, and reads both
    arguments through their upper-case spelling. *)
Theorem compare_operator_precedence_order (a b : string) :
  compare_operator_precedence a b = - compare_operator_precedence b a
  ∧ compare_operator_precedence a a = 0
  ∧ (compare_operator_precedence a b = -1
     ∨ compare_operator_precedence a b = 0
     ∨ compare_operator_precedence a b = 1)
  ∧ (compare_operator_precedence a b = 0 <->
     get_operator_precedence (PyStr.upper a)
     = get_operator_precedence (PyStr.upper b))
  ∧ compare_operator_precedence a b
    = compare_operator_precedence (PyStr.upper a) (PyStr.upper b).
Proof.
  rewrite !compare_operator_precedence_sgn, !upper_idemp.
  repeat split; lia.
Qed.

(** An operator whose upper-case spelling is unknown compares below every
    operator whose upper-case spelling is a key. *)
Lemma compare_unknown_known (op b : string) :
  OPERATOR_PRECEDENCES !! PyStr.upper op = None ->
  is_Some (OPERATOR_PRECEDENCES !! PyStr.upper b) ->
  compare_operator_precedence op b = -1.
Proof.
  intros Hop [v Hb]. rewrite compare_operator_precedence_sgn.
  rewrite (get_operator_precedence_None _ Hop).
  rewrite (get_operator_precedence_Some _ _ Hb).
  apply precedence_key_facts in Hb. lia.
Qed.

(** C7: a string whose upper-case form is not a key of the table has
    precedence -1, every key of the table has a precedence of at least 0,
    and the comparison of the former with the latter is -1. *)
Theorem unknown_operator_sentinel (op : string) :
  OPERATOR_PRECEDENCES !! PyStr.upper op = None ->
  get_operator_precedence op = -1
  ∧ forall b : string,
      is_Some (OPERATOR_PRECEDENCES !! b) ->
      0 <= get_operator_precedence b
      ∧ compare_operator_precedence op b = -1.
Proof.
  intros Hop. split.
  - by apply get_operator_precedence_None, precedence_upper_None.
  - intros b [v Hb].
    destruct (precedence_key_facts _ _ Hb) as [Hup Hv]. split.
    + rewrite (get_operator_precedence_Some _ _ Hb). lia.
    + apply compare_unknown_known; [done|]. rewrite Hup. by exists v.
Qed.

Lemma unknown_operator_sentinel_witness :
  OPERATOR_PRECEDENCES !! PyStr.upper "like" = None
  ∧ is_Some (OPERATOR_PRECEDENCES !! "AND")
  ∧ get_operator_precedence "like" = -1
  ∧ 0 <= get_operator_precedence "AND"
  ∧ compare_operator_precedence "like" "AND" = -1.
Proof.
  assert (Hop : OPERATOR_PRECEDENCES !! PyStr.upper "like" = None)
    by reflexivity.
  assert (Hb : is_Some (OPERATOR_PRECEDENCES !! "AND"))
    by (exists 1; reflexivity).
  destruct (unknown_operator_sentinel "like" Hop) as [H1 H2].
  destruct (H2 "AND" Hb) as [H3 H4].
  repeat split; assumption.
Defined.

(** C10: the lookup itself does not change case: a spelling that differs
    from its upper-case form, which is a key, has precedence -1, while the
    upper-case form has a tier and the comparison, which does change case,
    sees the two as equal. *)
Theorem get_operator_precedence_case_sensitive (s : string) :
  is_Some (OPERATOR_PRECEDENCES !! PyStr.upper s) ->
  s ≠ PyStr.upper s ->
  get_operator_precedence s = -1
  ∧ 0 <= get_operator_precedence (PyStr.upper s)
  ∧ compare_operator_precedence s (PyStr.upper s) = 0.
Proof.
  intros [v Hup] Hne. repeat split.
  - apply get_operator_precedence_None.
    destruct (OPERATOR_PRECEDENCES !! s) as [w|] eqn:Hs; [|done].
    destruct (precedence_key_facts _ _ Hs) as [Heq _]. congruence.
  - rewrite (get_operator_precedence_Some _ _ Hup).
    apply precedence_key_facts in Hup. lia.
  - rewrite compare_operator_precedence_sgn, upper_idemp. lia.
Qed.

Lemma get_operator_precedence_case_sensitive_witness :
  is_Some (OPERATOR_PRECEDENCES !! PyStr.upper "or")
  ∧ "or" ≠ PyStr.upper "or"
  ∧ get_operator_precedence "or" = -1
  ∧ 0 <= get_operator_precedence (PyStr.upper "or")
  ∧ compare_operator_precedence "or" (PyStr.upper "or") = 0.
Proof.
  assert (Hup : is_Some (OPERATOR_PRECEDENCES !! PyStr.upper "or"))
    by (exists 0; reflexivity).
  assert (Hne : "or" ≠ PyStr.upper "or") by discriminate.
  pose proof (get_operator_precedence_case_sensitive "or" Hup Hne) as H.
  repeat split; first [assumption | apply H].
Defined.

Example get_operator_precedence_lower_case :
  get_operator_precedence "or" = -1 ∧ get_operator_precedence "OR" = 0
  ∧ get_operator_precedence "and" = -1 ∧ get_operator_precedence "AND" = 1
  ∧ get_operator_precedence "in" = -1 ∧ get_operator_precedence "IN" = 3
  ∧ get_operator_precedence "Not In" = -1
  ∧ compare_operator_precedence "or" "and" = -1
  ∧ compare_operator_precedence "in" "IN" = 0.
Proof. repeat split; reflexivity. Qed.

(** ** Dictionaries built from items *)

Lemma dict_of_items_snoc {V : Type} (items : list (string * V)) (kv : string * V) :
  dict_of_items (items ++ [kv]) = <[kv.1 := kv.2]> (dict_of_items items).
Proof. unfold dict_of_items. by rewrite foldl_app. Qed.

Lemma dict_of_items_reverse {V : Type} (items : list (string * V)) :
  dict_of_items items = list_to_map (reverse items).
Proof.
  induction items as [|kv items IH] using rev_ind; [reflexivity|].
  rewrite dict_of_items_snoc, reverse_snoc, IH. by destruct kv.
Qed.

(** With distinct keys, a dictionary holds exactly its items. *)
Lemma dict_of_items_lookup {V : Type} (items : list (string * V)) (k : string) (v : V) :
  NoDup (items.*1) ->
  dict_of_items items !! k = Some v <-> (k, v) ∈ items.
Proof.
  intros Hnd. rewrite dict_of_items_reverse.
  rewrite <- elem_of_list_to_map.
  - by rewrite elem_of_reverse.
  - by rewrite fmap_reverse, reverse_Permutation.
Qed.

Section Inverse.

Variable d : gmap string string.

(** No two keys of [d] share a value. *)
Hypothesis values_distinct : NoDup ((map_to_list d).*2).

Lemma dict_inverse_lookup (k v : string) :
  dict_inverse d !! v = Some k <-> d !! k = Some v.
Proof.
  unfold dict_inverse. rewrite dict_of_items_lookup.
  - rewrite <- elem_of_map_to_list. rewrite list_elem_of_fmap. split.
    + intros [[k' v'] [Heq Hin]]. simpl in Heq. by simplify_eq.
    + intros Hin. by exists (k, v).
  - rewrite <- list_fmap_compose.
    by rewrite (list_fmap_ext _ snd (map_to_list d)) by done.
Qed.

(** No value of [d] is also one of its keys. *)
Hypothesis values_fresh : Forall (fun v => d !! v = None) ((map_to_list d).*2).

(** The union of a dictionary with its inverse is symmetric. *)
Lemma dict_with_inverse_sym (k v : string) :
  dict_with (dict_inverse d) d !! k = Some v ->
  dict_with (dict_inverse d) d !! v = Some k.
Proof.
  unfold dict_with. rewrite !lookup_union_Some_raw.
  intros [Hd | [_ Hinv]].
  - right. split; [|by apply dict_inverse_lookup].
    rewrite Forall_forall in values_fresh. apply values_fresh.
    apply list_elem_of_fmap. exists (k, v). split; [done|].
    by apply elem_of_map_to_list.
  - left. by apply dict_inverse_lookup.
Qed.

End Inverse.

(** ** The negation tables *)

(** The first binding of the table that [get_neg_operator] reads. *)
Lemma neg_table_construction (is_unary : bool) :
  neg_table is_unary =
  let base :=
    if is_unary then UNARY_NEG_OPERATOR_base else BINARY_NEG_OPERATOR_base in
  dict_with (dict_inverse base) base.
Proof. by destruct is_unary. Qed.

Lemma neg_base_values_distinct (is_unary : bool) :
  NoDup ((map_to_list (if is_unary then UNARY_NEG_OPERATOR_base
                       else BINARY_NEG_OPERATOR_base)).*2).
Proof.
  destruct is_unary; apply (bool_decide_unpack _); vm_compute; reflexivity.
Qed.

Lemma neg_base_values_fresh (is_unary : bool) :
  let base :=
    if is_unary then UNARY_NEG_OPERATOR_base else BINARY_NEG_OPERATOR_base in
  Forall (fun v => base !! v = None) ((map_to_list base).*2).
Proof.
  destruct is_unary; cbv zeta;
    apply (bool_decide_unpack _); vm_compute; reflexivity.
Qed.

(** Both tables are symmetric, being a dictionary united with its inverse. *)
Lemma neg_table_sym (is_unary : bool) (op n : string) :
  neg_table is_unary !! op = Some n -> neg_table is_unary !! n = Some op.
Proof.
  rewrite neg_table_construction. cbv zeta.
  apply dict_with_inverse_sym.
  - apply neg_base_values_distinct.
  - apply neg_base_values_fresh.
Qed.

Lemma neg_table_entries (is_unary : bool) :
  neg_table is_unary = list_to_map (neg_entries is_unary).
Proof. by destruct is_unary. Qed.

Lemma neg_entries_NoDup (is_unary : bool) : NoDup ((neg_entries is_unary).*1).
Proof.
  destruct is_unary; apply (bool_decide_unpack _); vm_compute; reflexivity.
Qed.

Lemma neg_table_lookup (is_unary : bool) (op n : string) :
  neg_table is_unary !! op = Some n <-> (op, n) ∈ neg_entries is_unary.
Proof.
  rewrite neg_table_entries. symmetry.
  apply elem_of_list_to_map, neg_entries_NoDup.
Qed.

Lemma neg_table_lookup_None (is_unary : bool) (op : string) :
  neg_table is_unary !! op = None <-> op ∉ (neg_entries is_unary).*1.
Proof.
  rewrite neg_table_entries. symmetry. apply not_elem_of_list_to_map.
Qed.

Lemma neg_entries_normal (is_unary : bool) :
  Forall (fun kv : string * string => PyStr.upper (PyStr.strip kv.1) = kv.1)
         (neg_entries is_unary).
Proof.
  destruct is_unary; apply (bool_decide_unpack _); vm_compute; reflexivity.
Qed.

(** The keys are already trimmed and in upper case. *)
Lemma neg_table_key_normal (is_unary : bool) (op n : string) :
  neg_table is_unary !! op = Some n -> PyStr.upper (PyStr.strip op) = op.
Proof.
  rewrite neg_table_lookup. intros Hin.
  pose proof (neg_entries_normal is_unary) as HF.
  rewrite Forall_forall in HF. exact (HF _ Hin).
Qed.

Lemma get_neg_operator_neg_table (op : string) (is_unary : bool) :
  get_neg_operator op is_unary
  = neg_table is_unary !! PyStr.upper (PyStr.strip op).
Proof. by destruct is_unary. Qed.

(** On any spelling, negating twice gives the trimmed upper-case spelling. *)
Lemma get_neg_operator_twice (op n : string) (is_unary : bool) :
  get_neg_operator op is_unary = Some n ->
  get_neg_operator n is_unary = Some (PyStr.upper (PyStr.strip op)).
Proof.
  rewrite !get_neg_operator_neg_table. intros Hop.
  apply neg_table_sym in Hop.
  by rewrite (neg_table_key_normal _ _ _ Hop).
Qed.

(** C6: an operator with a defined negation, that is a key of the unary or
    of the binary table, is one of the listed pairs, and negating its
    negation returns it. *)
Theorem get_neg_operator_involutive (is_unary : bool) (op n : string) :
  neg_table is_unary !! op = Some n ->
  (op, n) ∈ neg_entries is_unary
  ∧ get_neg_operator op is_unary = Some n
  ∧ get_neg_operator n is_unary = Some op.
Proof.
  intros Hop.
  assert (Hget : get_neg_operator op is_unary = Some n).
  { rewrite get_neg_operator_neg_table.
    by rewrite (neg_table_key_normal _ _ _ Hop). }
  split; [by apply neg_table_lookup|]. split; [done|].
  rewrite (get_neg_operator_twice _ _ _ Hget).
  by rewrite (neg_table_key_normal _ _ _ Hop).
Qed.

Lemma get_neg_operator_involutive_witness :
  neg_table false !! ">" = Some "<="
  ∧ ((">", "<=") ∈ neg_entries false
     ∧ get_neg_operator ">" false = Some "<="
     ∧ get_neg_operator "<=" false = Some ">").
Proof.
  assert (Hop : neg_table false !! ">" = Some "<=") by reflexivity.
  split; [exact Hop|].
  exact (get_neg_operator_involutive false ">" "<=" Hop).
Defined.

Example get_neg_operator_all :
  map (fun op => get_neg_operator op false)
      ["IN"; "NOT IN"; "IS"; "IS NOT"; "="; "!="; ">"; "<="; "<"; ">="]
  = map Some ["NOT IN"; "IN"; "IS NOT"; "IS"; "!="; "="; "<="; ">"; ">="; "<"]
  ∧ map (fun op => get_neg_operator op true) ["-"; "+"]
    = map Some ["+"; "-"].
Proof. split; reflexivity. Qed.

Example get_neg_operator_ex :
  get_neg_operator "  not in " false = Some "IN"
  ∧ get_neg_operator "is Not" false = Some "IS"
  ∧ get_neg_operator "like" false = None
  ∧ get_neg_operator "NOT  IN" false = None
  ∧ get_neg_operator "-" false = None
  ∧ get_neg_operator " - " true = Some "+"
  ∧ get_neg_operator "=" true = None
  ∧ get_neg_operator "" false = None.
Proof. repeat split; reflexivity. Qed.

(** ** The operation mixins *)

Lemma is_None_spec (v : value) : is_None v = true <-> v = PyNone.
Proof. destruct v; simpl; split; congruence. Qed.

(** C1: [__eq__] builds a node with IS when the operand is [None] and with =
    otherwise, [__ne__] one with IS NOT when the operand is [None] and with
    != otherwise, and [is_] and [is_not_] build IS and IS NOT nodes for
    every operand. *)
Theorem eq_ne_operator_selection (x v : value) :
  BinaryOperationMixin.__eq__ x v
  = BinaryExpression x v (match v with PyNone => "IS" | _ => "=" end)
  ∧ BinaryOperationMixin.__ne__ x v
    = BinaryExpression x v (match v with PyNone => "IS NOT" | _ => "!=" end)
  ∧ BinaryOperationMixin.is_ x v = BinaryExpression x v "IS"
  ∧ BinaryOperationMixin.is_not_ x v = BinaryExpression x v "IS NOT".
Proof. destruct v; repeat split; reflexivity. Qed.

Example eq_ne_ex :
  BinaryOperationMixin.__eq__ (PyString "age") PyNone
  = BinaryExpression (PyString "age") PyNone "IS"
  ∧ BinaryOperationMixin.__eq__ (PyString "age") (PyInt 5)
    = BinaryExpression (PyString "age") (PyInt 5) "="
  ∧ BinaryOperationMixin.__ne__ (PyString "age") PyNone
    = BinaryExpression (PyString "age") PyNone "IS NOT"
  ∧ BinaryOperationMixin.__ne__ (PyString "age") (PyList [])
    = BinaryExpression (PyString "age") (PyList []) "!="
  ∧ BinaryOperationMixin.is_ (PyString "age") (PyInt 5)
    = BinaryExpression (PyString "age") (PyInt 5) "IS"
  ∧ BinaryOperationMixin.is_not_ (PyString "age") (PyInt 5)
    = BinaryExpression (PyString "age") (PyInt 5) "IS NOT".
Proof. repeat split; reflexivity. Qed.

(** C9: [__radd__] and [__rsub__] are [__add__] and [__sub__]: on a
    receiver and an operand they build the + node and the - node with the
    receiver on the left. *)
Theorem reversed_add_sub (x y : value) :
  BinaryOperationMixin.__radd__ x y = BinaryExpression x y "+"
  ∧ BinaryOperationMixin.__radd__ x y = BinaryOperationMixin.__add__ x y
  ∧ BinaryOperationMixin.__rsub__ x y = BinaryExpression x y "-"
  ∧ BinaryOperationMixin.__rsub__ x y = BinaryOperationMixin.__sub__ x y.
Proof. repeat split; reflexivity. Qed.

(** ** Rendering helpers *)

Section RenderingFacts.

Variable get_sql_and_params : value -> option (string * list value).
Variable str : value -> string.

Lemma pieces_step_spec (pieces : list string) (params : list value)
    (exp : value) :
  pieces_step get_sql_and_params str (pieces, params) exp
  = ((pieces ++ [piece_of get_sql_and_params str exp])%list,
     (params ++ params_of get_sql_and_params exp)%list).
Proof.
  unfold pieces_step, sql_and_params, piece_of, params_of.
  destruct (get_sql_and_params exp) as [[piece [|p ps]]|]; simpl;
    by rewrite ?app_nil_r.
Qed.

Lemma pieces_loop_spec (exps : list value) (pieces : list string)
    (params : list value) :
  foldl (pieces_step get_sql_and_params str) (pieces, params) exps
  = ((pieces ++ map (piece_of get_sql_and_params str) exps)%list,
     (params ++ concat (map (params_of get_sql_and_params) exps))%list).
Proof.
  revert pieces params.
  induction exps as [|exp exps IH]; intros pieces params;
    cbn [foldl map concat].
  - by rewrite !app_nil_r.
  - rewrite pieces_step_spec, IH. by rewrite <- !app_assoc.
Qed.

(** Rendered directly, a value without the method has the text that
    [coerce] gives it and no parameters. *)
Lemma sql_and_params_literal (v : value) (coerce : value -> string) :
  get_sql_and_params v = None ->
  sql_and_params get_sql_and_params v coerce = (coerce v, []).
Proof. unfold sql_and_params. by intros ->. Qed.

Lemma sql_and_params_expression (v : value) (coerce : value -> string)
    (r : string * list value) :
  get_sql_and_params v = Some r ->
  sql_and_params get_sql_and_params v coerce = r.
Proof. unfold sql_and_params. by intros ->. Qed.

(** The [coerce] argument of [get_sql_pieces_and_params] is never read. *)
Lemma get_sql_pieces_and_params_coerce (exps : list value)
    (coerce coerce' : value -> string) :
  get_sql_pieces_and_params get_sql_and_params str exps coerce
  = get_sql_pieces_and_params get_sql_and_params str exps coerce'.
Proof. reflexivity. Qed.

(** Rendering a sequence made of two parts renders the parts in turn. *)
Lemma get_sql_pieces_and_params_app (exps exps' : list value)
    (coerce : value -> string) :
  get_sql_pieces_and_params get_sql_and_params str (exps ++ exps') coerce
  = (((get_sql_pieces_and_params get_sql_and_params str exps coerce).1
      ++ (get_sql_pieces_and_params get_sql_and_params str exps' coerce).1)%list,
     ((get_sql_pieces_and_params get_sql_and_params str exps coerce).2
      ++ (get_sql_pieces_and_params get_sql_and_params str exps' coerce).2)%list).
Proof.
  unfold get_sql_pieces_and_params. rewrite !pieces_loop_spec. simpl.
  by rewrite !map_app, concat_app.
Qed.

End RenderingFacts.

(** C3: the pieces are the texts of the elements in the order of the
    sequence, and the parameters are the concatenation, in the same order,
    of the parameters of the elements: those its method returns for an
    element that has [get_sql_and_params], none for any other element. *)
Theorem get_sql_pieces_and_params_order
    (get_sql_and_params : value -> option (string * list value))
    (str : value -> string) (exps : list value) (coerce : value -> string) :
  get_sql_pieces_and_params get_sql_and_params str exps coerce
  = (map (fun exp => (sql_and_params get_sql_and_params exp str).1) exps,
     concat (map (fun exp => match get_sql_and_params exp with
                             | Some r => r.2
                             | None => []
                             end) exps))
  ∧ length (get_sql_pieces_and_params get_sql_and_params str exps coerce).1
    = length exps.
Proof.
  unfold get_sql_pieces_and_params. rewrite pieces_loop_spec. simpl.
  split; [|by rewrite length_map].
  f_equal. apply map_ext. intros exp.
  unfold sql_and_params, piece_of. by destruct (get_sql_and_params exp).
Qed.

Example get_sql_pieces_and_params_ex :
  get_sql_pieces_and_params sample_render str_literal
    [ BinaryOperationMixin.__eq__ (PyInt 1) (PyInt 2);
      PyInt 7;
      UnaryOperationMixin.desc (PyString "age");
      BinaryOperationMixin.__add__
        (BinaryOperationMixin.__mul__ (PyInt 3) (PyInt 4)) (PyInt 5) ]
    str_literal
  = (["="; "7"; "DESC"; "+"],
     [PyInt 1; PyInt 2; PyString "age"; PyInt 3; PyInt 4; PyInt 5]).
Proof. reflexivity. Qed.

(** In a sequence the text of such a value is [str] of it, whatever
    [coerce] is. *)
Lemma get_sql_pieces_and_params_literals
    (get_sql_and_params : value -> option (string * list value))
    (str : value -> string) (exps : list value) (coerce : value -> string) :
  Forall (fun exp => get_sql_and_params exp = None) exps ->
  get_sql_pieces_and_params get_sql_and_params str exps coerce
  = (map str exps, []).
Proof.
  intros Hlit. unfold get_sql_pieces_and_params. rewrite pieces_loop_spec.
  simpl. induction Hlit as [|exp exps Hexp _ IH]; [done|].
  simpl. unfold piece_of at 1, params_of at 1. rewrite Hexp. simpl.
  by injection IH as -> ->.
Qed.

(** C4, on the sequence ['a'] with a [coerce] that answers '%s': rendered
    directly the literal has the text '%s', but as an element of the
    sequence its text is 'a', the [coerce] argument not being handed on to
    [sql_and_params]. *)
Theorem get_sql_pieces_and_params_drops_coerce :
  sql_and_params no_render (PyString "a") (fun _ => "%s") = ("%s", [])
  ∧ get_sql_pieces_and_params no_render str_literal [PyString "a"]
      (fun _ => "%s")
    = (["a"], [])
  ∧ get_sql_pieces_and_params no_render str_literal [PyString "a"]
      (fun _ => "%s")
    ≠ (["%s"], []).
Proof. repeat split. discriminate. Qed.

(** * Further facts *)

Example camel2underscore_ex :
  map camel2underscore
      ["CamelCase"; "HTTPResponse"; "getHTTPResponseCode"; "already_snake";
       "A"; ""; "aB"; "ABc"; "a1B2"; "XyZ9Ab"]
  = ["camel_case"; "http_response"; "get_http_response_code"; "already_snake";
     "a"; ""; "a_b"; "a_bc"; "a1_b2"; "xy_z9_ab"].
Proof. reflexivity. Qed.

(** ** Bytes *)

Ltac by_bytes c := destruct c as [[] [] [] [] [] [] [] []]; try done.

Lemma lower_char_AZ (c : ascii) : PyStr.is_AZ (PyStr.lower_char c) = false.
Proof. by_bytes c. Qed.

Lemma lower_char_id (c : ascii) :
  PyStr.is_AZ c = false -> PyStr.lower_char c = c.
Proof. by_bytes c. Qed.

Lemma lower_char_underscore (c : ascii) :
  (N_of_ascii (PyStr.lower_char c) =? 95)%N = (N_of_ascii c =? 95)%N.
Proof. by_bytes c. Qed.

Lemma is_AZ_not_underscore (c : ascii) :
  PyStr.is_AZ c = true -> (N_of_ascii c =? 95)%N = false.
Proof. by_bytes c. Qed.

Lemma is_az_not_underscore (c : ascii) :
  PyStr.is_az c = true -> (N_of_ascii c =? 95)%N = false.
Proof. by_bytes c. Qed.

Lemma is_09_not_underscore (c : ascii) :
  PyStr.is_09 c = true -> (N_of_ascii c =? 95)%N = false.
Proof. by_bytes c. Qed.

Lemma lower_has_AZ (s : string) : PyStr.has_AZ (PyStr.lower s) = false.
Proof.
  induction s as [|c s IH]; simpl; [done|]. by rewrite lower_char_AZ, IH.
Qed.

Lemma lower_id (s : string) : PyStr.has_AZ s = false -> PyStr.lower s = s.
Proof.
  induction s as [|c s IH]; simpl; [done|].
  intros [Hc Hs]%orb_false_elim. by rewrite lower_char_id, IH.
Qed.

Lemma lower_drop_underscores (s : string) :
  PyStr.drop_underscores (PyStr.lower s)
  = PyStr.lower (PyStr.drop_underscores s).
Proof.
  induction s as [|c s IH]; simpl; [done|].
  rewrite lower_char_underscore.
  destruct (N_of_ascii c =? 95)%N; simpl; by rewrite IH.
Qed.

(** ** [camel2underscore] *)

Lemma sub_word_id (s : string) (in_run : bool) :
  PyStr.has_AZ s = false -> sub_word in_run s = s.
Proof.
  revert in_run. induction s as [|c s IH]; intros in_run Hs; [done|].
  cbn [PyStr.has_AZ] in Hs. apply orb_false_elim in Hs as [Hc Hs].
  cbn [sub_word].
  destruct (in_run && PyStr.is_az c); [by rewrite IH|].
  destruct s as [|u [|l s']]; [done|by rewrite IH|].
  assert (Hu : PyStr.is_AZ u = false).
  { cbn [PyStr.has_AZ] in Hs. by apply orb_false_elim in Hs as [Hu _]. }
  rewrite Hu, andb_false_r. cbn [andb]. by rewrite IH.
Qed.

Lemma sub_hump_id (s : string) : PyStr.has_AZ s = false -> sub_hump s = s.
Proof.
  induction s as [|c s IH]; intros Hs; [done|].
  cbn [PyStr.has_AZ] in Hs. apply orb_false_elim in Hs as [Hc Hs].
  cbn [sub_hump]. destruct s as [|u s']; [done|].
  assert (Hu : PyStr.is_AZ u = false).
  { cbn [PyStr.has_AZ] in Hs. by apply orb_false_elim in Hs as [Hu _]. }
  rewrite Hu, andb_false_r. by rewrite IH.
Qed.

Lemma sub_word_cons (in_run : bool) (c : ascii) (rest : string) :
  sub_word in_run (String c rest)
  = if in_run && PyStr.is_az c then String c (sub_word true rest)
    else
      match rest with
      | String u (String l rest') =>
          if PyStr.is_dot c && PyStr.is_AZ u && PyStr.is_az l
          then String c (String "_" (String u (String l (sub_word true rest'))))
          else String c (sub_word false rest)
      | _ => String c (sub_word false rest)
      end.
Proof. reflexivity. Qed.

Lemma sub_hump_cons (c : ascii) (rest : string) :
  sub_hump (String c rest)
  = match rest with
    | String u rest' =>
        if (PyStr.is_az c || PyStr.is_09 c) && PyStr.is_AZ u
        then String c (String "_" (String u (sub_hump rest')))
        else String c (sub_hump rest)
    | EmptyString => String c EmptyString
    end.
Proof. by destruct rest. Qed.

Lemma drop_underscores_cons (c : ascii) (s t : string) :
  PyStr.drop_underscores s = PyStr.drop_underscores t ->
  PyStr.drop_underscores (String c s) = PyStr.drop_underscores (String c t).
Proof. simpl. by intros ->. Qed.

Lemma drop_underscores_insert (s : string) :
  PyStr.drop_underscores (String "_" s) = PyStr.drop_underscores s.
Proof. reflexivity. Qed.

Lemma drop_underscores_keep (c : ascii) (s : string) :
  (N_of_ascii c =? 95)%N = false ->
  PyStr.drop_underscores (String c s) = String c (PyStr.drop_underscores s).
Proof. simpl. by intros ->. Qed.

(** [sub_word] only puts underscores in; shown for all strings up to a
    length, as a match takes three bytes or more at a time. *)
Lemma sub_word_drop_underscores_le (n : nat) (s : string) (in_run : bool) :
  (String.length s <= n)%nat ->
  PyStr.drop_underscores (sub_word in_run s) = PyStr.drop_underscores s.
Proof.
  revert s in_run. induction n as [|n IH]; intros s in_run Hlen.
  - destruct s; [done|]. simpl in Hlen. lia.
  - destruct s as [|c s]; [done|]. simpl in Hlen.
    rewrite sub_word_cons.
    destruct (in_run && PyStr.is_az c).
    { apply drop_underscores_cons, IH. lia. }
    destruct s as [|u [|l s']].
    + done.
    + apply drop_underscores_cons, IH. lia.
    + destruct (PyStr.is_dot c && PyStr.is_AZ u && PyStr.is_az l) eqn:Hm.
      * apply andb_prop in Hm as [[Hc Hu]%andb_prop Hl].
        simpl in Hlen.
        apply drop_underscores_cons. rewrite drop_underscores_insert.
        rewrite !(drop_underscores_keep u) by by apply is_AZ_not_underscore.
        rewrite !(drop_underscores_keep l) by by apply is_az_not_underscore.
        rewrite IH by lia. done.
      * apply drop_underscores_cons, IH. lia.
Qed.

Lemma sub_hump_drop_underscores_le (n : nat) (s : string) :
  (String.length s <= n)%nat ->
  PyStr.drop_underscores (sub_hump s) = PyStr.drop_underscores s.
Proof.
  revert s. induction n as [|n IH]; intros s Hlen.
  - destruct s; [done|]. simpl in Hlen. lia.
  - destruct s as [|c s]; [done|]. simpl in Hlen.
    rewrite sub_hump_cons. destruct s as [|u s']; [done|].
    destruct ((PyStr.is_az c || PyStr.is_09 c) && PyStr.is_AZ u) eqn:Hm.
    + apply andb_prop in Hm as [Hc Hu]. simpl in Hlen.
      apply drop_underscores_cons. rewrite drop_underscores_insert.
      rewrite !(drop_underscores_keep u) by by apply is_AZ_not_underscore.
      rewrite IH by lia. done.
    + apply drop_underscores_cons, IH. lia.
Qed.

(** X1: [camel2underscore] only inserts underscores and lowers the case:
    without its underscores, the result is the lower-case form of the name
    without its underscores. *)
Theorem camel2underscore_letters (name : string) :
  PyStr.drop_underscores (camel2underscore name)
  = PyStr.lower (PyStr.drop_underscores name).
Proof.
  unfold camel2underscore. rewrite lower_drop_underscores.
  rewrite (sub_hump_drop_underscores_le _ _ (Nat.le_refl _)).
  by rewrite (sub_word_drop_underscores_le _ _ _ (Nat.le_refl _)).
Qed.

(** X2: a name without upper-case letters is returned as it is. *)
Theorem camel2underscore_fixed (name : string) :
  PyStr.has_AZ name = false -> camel2underscore name = name.
Proof.
  intros H. unfold camel2underscore.
  rewrite (sub_word_id _ _ H), (sub_hump_id _ H). by apply lower_id.
Qed.

Lemma camel2underscore_fixed_witness :
  PyStr.has_AZ "group_concat2" = false
  ∧ camel2underscore "group_concat2" = "group_concat2".
Proof.
  assert (H : PyStr.has_AZ "group_concat2" = false) by reflexivity.
  split; [exact H|]. exact (camel2underscore_fixed "group_concat2" H).
Defined.

(** X3: the result has no upper-case letter, and converting it again
    changes nothing. *)
Theorem camel2underscore_idempotent (name : string) :
  PyStr.has_AZ (camel2underscore name) = false
  ∧ camel2underscore (camel2underscore name) = camel2underscore name.
Proof.
  assert (H : PyStr.has_AZ (camel2underscore name) = false)
    by apply lower_has_AZ.
  split; [exact H|]. unfold camel2underscore at 1.
  rewrite (sub_word_id _ _ H), (sub_hump_id _ H). by apply lower_id.
Qed.

(** ** More on whitespace and case *)

Lemma isspace_upper_char (c : ascii) :
  PyStr.isspace (PyStr.upper_char c) = PyStr.isspace c.
Proof. by_bytes c. Qed.

Lemma isspace_lower_char (c : ascii) :
  PyStr.isspace (PyStr.lower_char c) = PyStr.isspace c.
Proof. by_bytes c. Qed.

Lemma upper_lower_char (c : ascii) :
  PyStr.upper_char (PyStr.lower_char c) = PyStr.upper_char c.
Proof. by_bytes c. Qed.

Lemma upper_lower (s : string) : PyStr.upper (PyStr.lower s) = PyStr.upper s.
Proof.
  induction s as [|c s IH]; simpl; [done|]. by rewrite upper_lower_char, IH.
Qed.

Lemma lstrip_upper (s : string) :
  PyStr.lstrip (PyStr.upper s) = PyStr.upper (PyStr.lstrip s).
Proof.
  induction s as [|c s IH]; simpl; [done|].
  rewrite isspace_upper_char. by destruct (PyStr.isspace c).
Qed.

Lemma rstrip_upper (s : string) :
  PyStr.rstrip (PyStr.upper s) = PyStr.upper (PyStr.rstrip s).
Proof.
  induction s as [|c s IH]; simpl; [done|].
  rewrite IH, isspace_upper_char.
  destruct (PyStr.rstrip s); simpl; [|done]. by destruct (PyStr.isspace c).
Qed.

Lemma strip_upper (s : string) :
  PyStr.strip (PyStr.upper s) = PyStr.upper (PyStr.strip s).
Proof. unfold PyStr.strip. by rewrite lstrip_upper, rstrip_upper. Qed.

Lemma lstrip_lower (s : string) :
  PyStr.lstrip (PyStr.lower s) = PyStr.lower (PyStr.lstrip s).
Proof.
  induction s as [|c s IH]; simpl; [done|].
  rewrite isspace_lower_char. by destruct (PyStr.isspace c).
Qed.

Lemma rstrip_lower (s : string) :
  PyStr.rstrip (PyStr.lower s) = PyStr.lower (PyStr.rstrip s).
Proof.
  induction s as [|c s IH]; simpl; [done|].
  rewrite IH, isspace_lower_char.
  destruct (PyStr.rstrip s); simpl; [|done]. by destruct (PyStr.isspace c).
Qed.

Lemma strip_lower (s : string) :
  PyStr.strip (PyStr.lower s) = PyStr.lower (PyStr.strip s).
Proof. unfold PyStr.strip. by rewrite lstrip_lower, rstrip_lower. Qed.

Lemma lstrip_all_space (ws : string) :
  PyStr.all_space ws = true -> PyStr.lstrip ws = EmptyString.
Proof.
  induction ws as [|c ws IH]; simpl; [done|].
  intros [-> Hws]%andb_prop. by apply IH.
Qed.

Lemma rstrip_all_space (ws : string) :
  PyStr.all_space ws = true -> PyStr.rstrip ws = EmptyString.
Proof.
  induction ws as [|c ws IH]; simpl; [done|].
  intros [-> Hws]%andb_prop. by rewrite IH.
Qed.

Lemma lstrip_app (s t : string) :
  PyStr.lstrip (s +:+ t)
  = if PyStr.all_space s then PyStr.lstrip t else PyStr.lstrip s +:+ t.
Proof.
  induction s as [|c s IH]; simpl; [done|].
  destruct (PyStr.isspace c); simpl; [exact IH|done].
Qed.

Lemma rstrip_app_space (s ws : string) :
  PyStr.all_space ws = true -> PyStr.rstrip (s +:+ ws) = PyStr.rstrip s.
Proof.
  intros Hws. induction s as [|c s IH]; simpl.
  - by apply rstrip_all_space.
  - by rewrite IH.
Qed.

(** Whitespace around a string does not survive [strip]. *)
Lemma strip_pad (l s r : string) :
  PyStr.all_space l = true -> PyStr.all_space r = true ->
  PyStr.strip (l +:+ s +:+ r) = PyStr.strip s.
Proof.
  intros Hl Hr. unfold PyStr.strip.
  rewrite lstrip_app, Hl, lstrip_app.
  destruct (PyStr.all_space s) eqn:Hs.
  - by rewrite (lstrip_all_space r Hr), (lstrip_all_space s Hs).
  - by apply rstrip_app_space.
Qed.

Lemma starts_space_upper (s : string) :
  PyStr.starts_space (PyStr.upper s) = PyStr.starts_space s.
Proof. destruct s; simpl; [done|]. apply isspace_upper_char. Qed.

Lemma ends_space_upper (s : string) :
  PyStr.ends_space (PyStr.upper s) = PyStr.ends_space s.
Proof.
  induction s as [|c s IH]; [done|].
  destruct s as [|c' s']; [apply isspace_upper_char|exact IH].
Qed.

(** C8: the operator is trimmed, then put in upper case, then looked up in
    the unary table when [is_unary] holds and in the binary table
    otherwise, and the result is [None] exactly when the normalized operator
    is not a key of that table.  Trimming cuts the whole runs of whitespace
    off both ends of the operator and nothing else, so that whitespace put
    around an operator does not change the result; and the case of the
    letters does not change it either. *)
Theorem get_neg_operator_normalizes (op : string) (is_unary : bool) :
  get_neg_operator op is_unary
  = (if is_unary then UNARY_NEG_OPERATOR else BINARY_NEG_OPERATOR)
      !! PyStr.upper (PyStr.strip op)
  ∧ (get_neg_operator op is_unary = None <->
     PyStr.upper (PyStr.strip op) ∉
       (if is_unary then ["-"; "+"]
        else ["IN"; "NOT IN"; "IS"; "IS NOT"; "="; "!="; ">"; "<="; "<"; ">="]))
  ∧ (exists l r : string,
       op = l +:+ PyStr.strip op +:+ r
       ∧ PyStr.all_space l = true ∧ PyStr.all_space r = true
       ∧ PyStr.starts_space (PyStr.strip op) = false
       ∧ PyStr.ends_space (PyStr.strip op) = false)
  ∧ (forall l r : string,
       PyStr.all_space l = true -> PyStr.all_space r = true ->
       get_neg_operator (l +:+ op +:+ r) is_unary
       = get_neg_operator op is_unary)
  ∧ get_neg_operator (PyStr.lower op) is_unary = get_neg_operator op is_unary
  ∧ get_neg_operator (PyStr.upper op) is_unary = get_neg_operator op is_unary.
Proof.
  split; [by destruct is_unary|].
  split.
  { rewrite get_neg_operator_neg_table, neg_table_lookup_None.
    by destruct is_unary. }
  split; [apply strip_spec|].
  rewrite !get_neg_operator_neg_table. repeat split.
  - intros l r Hl Hr. rewrite get_neg_operator_neg_table.
    by rewrite strip_pad.
  - by rewrite strip_lower, upper_lower.
  - by rewrite strip_upper, upper_idemp.
Qed.

Lemma get_neg_operator_normalizes_witness :
  PyStr.all_space "  " = true
  ∧ PyStr.all_space " " = true
  ∧ get_neg_operator ("  " +:+ "Not In" +:+ " ") false
    = get_neg_operator "Not In" false
  ∧ get_neg_operator (PyStr.lower "Not In") false
    = get_neg_operator "Not In" false
  ∧ get_neg_operator "Not In" false
    = BINARY_NEG_OPERATOR !! PyStr.upper (PyStr.strip "Not In").
Proof.
  assert (Hl : PyStr.all_space "  " = true) by reflexivity.
  assert (Hr : PyStr.all_space " " = true) by reflexivity.
  destruct (get_neg_operator_normalizes "Not In" false)
    as (Hlook & _ & _ & Hpad & Hlow & _).
  split; [exact Hl|]. split; [exact Hr|].
  split; [exact (Hpad "  " " " Hl Hr)|].
  split; [exact Hlow|exact Hlook].
Defined.

Example get_neg_operator_normalizes_ex :
  get_neg_operator ("  " +:+ "Not In" +:+ " ") false = Some "IN"
  ∧ get_neg_operator (PyStr.lower "Not In") false = Some "IN"
  ∧ get_neg_operator "Not In" false = Some "IN"
  ∧ get_neg_operator "Not In" true = None
  ∧ get_neg_operator "Not  In" false = None.
Proof. repeat split; reflexivity. Qed.

(** ** More on the tables *)

Lemma precedence_entries_trimmed :
  Forall (fun kv : string * Z =>
            PyStr.starts_space kv.1 = false ∧ PyStr.ends_space kv.1 = false)
         precedence_entries.
Proof. apply (bool_decide_unpack _). vm_compute. reflexivity. Qed.

Lemma neg_entries_facts (is_unary : bool) :
  Forall (fun kv : string * string =>
            PyStr.upper kv.1 = kv.1 ∧ PyStr.upper kv.2 = kv.2
            ∧ kv.1 ≠ kv.2
            ∧ get_operator_precedence kv.1 = (if is_unary then 5 else 3)
            ∧ get_operator_precedence kv.2 = (if is_unary then 5 else 3)
            ∧ neg_table (negb is_unary) !! kv.1 = None
            ∧ neg_table (negb is_unary) !! kv.2 = None)
         (neg_entries is_unary).
Proof.
  destruct is_unary; apply (bool_decide_unpack _); vm_compute; reflexivity.
Qed.

Lemma get_neg_operator_entry (op n : string) (is_unary : bool) :
  get_neg_operator op is_unary = Some n ->
  (PyStr.upper (PyStr.strip op), n) ∈ neg_entries is_unary.
Proof. rewrite get_neg_operator_neg_table. apply neg_table_lookup. Qed.

(** X4: the comparison is transitive: if [a] binds at least as tightly as
    [b] and [b] as [c], then [a] binds at least as tightly as [c], and
    strictly more tightly as soon as one of the two steps is strict. *)
Theorem compare_operator_precedence_trans (a b c : string) :
  0 <= compare_operator_precedence a b ->
  0 <= compare_operator_precedence b c ->
  0 <= compare_operator_precedence a c
  ∧ (compare_operator_precedence a b = 1 ∨ compare_operator_precedence b c = 1
     <-> compare_operator_precedence a c = 1).
Proof. rewrite !compare_operator_precedence_sgn. lia. Qed.

Lemma compare_operator_precedence_trans_witness :
  0 <= compare_operator_precedence "*" "in"
  ∧ 0 <= compare_operator_precedence "in" "like"
  ∧ 0 <= compare_operator_precedence "*" "like"
  ∧ (compare_operator_precedence "*" "in" = 1
     ∨ compare_operator_precedence "in" "like" = 1
     <-> compare_operator_precedence "*" "like" = 1).
Proof.
  assert (H1 : 0 <= compare_operator_precedence "*" "in") by by vm_compute.
  assert (H2 : 0 <= compare_operator_precedence "in" "like") by by vm_compute.
  destruct (compare_operator_precedence_trans "*" "in" "like" H1 H2) as [H3 H4].
  repeat split; first [assumption | apply H4].
Defined.

(** X5: an operator and its negation have the same precedence, tier 3 in
    the binary table and tier 5 in the unary one, so they compare as 0. *)
Theorem get_neg_operator_same_precedence (op n : string) (is_unary : bool) :
  get_neg_operator op is_unary = Some n ->
  get_operator_precedence n = (if is_unary then 5 else 3)
  ∧ get_operator_precedence (PyStr.upper (PyStr.strip op))
    = (if is_unary then 5 else 3)
  ∧ compare_operator_precedence n (PyStr.strip op) = 0.
Proof.
  intros Hin%get_neg_operator_entry.
  pose proof (neg_entries_facts is_unary) as HF.
  rewrite Forall_forall in HF. apply HF in Hin. simpl in Hin.
  destruct Hin as (_ & Hn & _ & Hpk & Hpn & _).
  repeat split; [done..|].
  rewrite compare_operator_precedence_sgn, Hn, Hpk, Hpn. lia.
Qed.

Lemma get_neg_operator_same_precedence_witness :
  get_neg_operator " not in " false = Some "IN"
  ∧ get_operator_precedence "IN" = 3
  ∧ get_operator_precedence (PyStr.upper (PyStr.strip " not in ")) = 3
  ∧ compare_operator_precedence "IN" (PyStr.strip " not in ") = 0.
Proof.
  assert (H : get_neg_operator " not in " false = Some "IN") by reflexivity.
  split; [exact H|].
  exact (get_neg_operator_same_precedence " not in " "IN" false H).
Defined.

(** X6: a negation is never the operator itself, and an operator that has a
    negation in one of the two tables has none in the other, nor has its
    negation. *)
Theorem get_neg_operator_tables_apart (op n : string) (is_unary : bool) :
  get_neg_operator op is_unary = Some n ->
  n ≠ PyStr.upper (PyStr.strip op)
  ∧ get_neg_operator op (negb is_unary) = None
  ∧ get_neg_operator n (negb is_unary) = None.
Proof.
  intros Hget. pose proof (get_neg_operator_twice _ _ _ Hget) as Hback.
  apply get_neg_operator_entry in Hget as Hin.
  apply get_neg_operator_entry in Hback as Hnin.
  pose proof (neg_entries_facts is_unary) as HF.
  rewrite Forall_forall in HF.
  apply HF in Hin. apply HF in Hnin. simpl in Hin, Hnin.
  destruct Hin as (_ & _ & Hne & _ & _ & Hk & _).
  destruct Hnin as (_ & _ & _ & _ & _ & Hk' & _).
  rewrite !get_neg_operator_neg_table. by repeat split.
Qed.

Lemma get_neg_operator_tables_apart_witness :
  get_neg_operator "-" true = Some "+"
  ∧ "+" ≠ PyStr.upper (PyStr.strip "-")
  ∧ get_neg_operator "-" (negb true) = None
  ∧ get_neg_operator "+" (negb true) = None.
Proof.
  assert (H : get_neg_operator "-" true = Some "+") by reflexivity.
  split; [exact H|]. exact (get_neg_operator_tables_apart "-" "+" true H).
Defined.

(** X7: [get_neg_operator] does not see whitespace around the operator nor
    the case of its letters. *)
Theorem get_neg_operator_spelling (l op r : string) (is_unary : bool) :
  PyStr.all_space l = true -> PyStr.all_space r = true ->
  get_neg_operator (l +:+ op +:+ r) is_unary = get_neg_operator op is_unary
  ∧ get_neg_operator (PyStr.lower op) is_unary = get_neg_operator op is_unary
  ∧ get_neg_operator (PyStr.upper op) is_unary = get_neg_operator op is_unary.
Proof.
  intros Hl Hr. rewrite !get_neg_operator_neg_table.
  rewrite strip_pad by done.
  by rewrite strip_lower, upper_lower, strip_upper, upper_idemp.
Qed.

Lemma get_neg_operator_spelling_witness :
  PyStr.all_space "  " = true ∧ PyStr.all_space " " = true
  ∧ get_neg_operator ("  " +:+ "Is Not" +:+ " ") false
    = get_neg_operator "Is Not" false
  ∧ get_neg_operator (PyStr.lower "Is Not") false
    = get_neg_operator "Is Not" false
  ∧ get_neg_operator (PyStr.upper "Is Not") false
    = get_neg_operator "Is Not" false.
Proof.
  assert (Hl : PyStr.all_space "  " = true) by reflexivity.
  assert (Hr : PyStr.all_space " " = true) by reflexivity.
  split; [exact Hl|]. split; [exact Hr|].
  exact (get_neg_operator_spelling "  " "Is Not" " " false Hl Hr).
Defined.

(** X8: the precedence functions, unlike [get_neg_operator], do not trim: an
    operator written with whitespace at its start or at its end is unknown
    to them, so it has precedence -1 and compares below every key of the
    table. *)
Theorem precedence_not_trimmed (op b : string) :
  PyStr.starts_space op || PyStr.ends_space op = true ->
  is_Some (OPERATOR_PRECEDENCES !! b) ->
  get_operator_precedence op = -1
  ∧ get_operator_precedence (PyStr.upper op) = -1
  ∧ compare_operator_precedence op b = -1.
Proof.
  intros Hsp Hb.
  assert (Hup : OPERATOR_PRECEDENCES !! PyStr.upper op = None).
  { destruct (OPERATOR_PRECEDENCES !! PyStr.upper op) as [v|] eqn:Hv; [|done].
    apply OPERATOR_PRECEDENCES_lookup in Hv.
    pose proof precedence_entries_trimmed as HF.
    rewrite Forall_forall in HF. apply HF in Hv as [Hs He]. simpl in Hs, He.
    rewrite starts_space_upper in Hs. rewrite ends_space_upper in He.
    by rewrite Hs, He in Hsp. }
  repeat split.
  - by apply get_operator_precedence_None, precedence_upper_None.
  - by apply get_operator_precedence_None.
  - apply compare_unknown_known; [done|].
    destruct Hb as [v Hb].
    destruct (precedence_key_facts _ _ Hb) as [-> _]. by exists v.
Qed.

Lemma precedence_not_trimmed_witness :
  PyStr.starts_space " IN" || PyStr.ends_space " IN" = true
  ∧ is_Some (OPERATOR_PRECEDENCES !! "OR")
  ∧ get_operator_precedence " IN" = -1
  ∧ get_operator_precedence (PyStr.upper " IN") = -1
  ∧ compare_operator_precedence " IN" "OR" = -1.
Proof.
  assert (Hsp : PyStr.starts_space " IN" || PyStr.ends_space " IN" = true)
    by reflexivity.
  assert (Hb : is_Some (OPERATOR_PRECEDENCES !! "OR"))
    by (exists 0; reflexivity).
  split; [exact Hsp|]. split; [exact Hb|].
  exact (precedence_not_trimmed " IN" "OR" Hsp Hb).
Defined.

(** ** The mixins against the tables *)

Ltac mixin_nodes :=
  repeat split; intros x v;
  try (destruct v; do 2 eexists; repeat split; reflexivity);
  eexists; split; reflexivity.

(** X9: the comparison mixins come in pairs whose operators negate each
    other: [__eq__] with [__ne__] whether the operand is [None] or not,
    [__gt__] with [__le__], [__lt__] with [__ge__], [in_] (also as
    [__lshift__]) with [not_in_], and [is_] with [is_not_]. *)
Theorem mixin_negation_pairs :
  negation_pair BinaryOperationMixin.__eq__ BinaryOperationMixin.__ne__
  ∧ negation_pair BinaryOperationMixin.__gt__ BinaryOperationMixin.__le__
  ∧ negation_pair BinaryOperationMixin.__lt__ BinaryOperationMixin.__ge__
  ∧ negation_pair BinaryOperationMixin.in_ BinaryOperationMixin.not_in_
  ∧ negation_pair BinaryOperationMixin.__lshift__ BinaryOperationMixin.not_in_
  ∧ negation_pair BinaryOperationMixin.is_ BinaryOperationMixin.is_not_.
Proof. mixin_nodes. Qed.

(** X10: the operators of the other mixins have no negation:
    [get_neg_operator] answers [None] for the arithmetic nodes (the unary
    table is not read for them), for [like_], [ilike_], [regexp_],
    [between_] and [concat_], and, read as unary, for [desc] and [asc]. *)
Theorem mixin_without_negation :
  (no_negation BinaryOperationMixin.__add__
   ∧ no_negation BinaryOperationMixin.__radd__
   ∧ no_negation BinaryOperationMixin.__sub__
   ∧ no_negation BinaryOperationMixin.__rsub__
   ∧ no_negation BinaryOperationMixin.__mul__
   ∧ no_negation BinaryOperationMixin.__div__
   ∧ no_negation BinaryOperationMixin.__mod__
   ∧ no_negation BinaryOperationMixin.like_
   ∧ no_negation BinaryOperationMixin.ilike_
   ∧ no_negation BinaryOperationMixin.regexp_
   ∧ no_negation BinaryOperationMixin.between_
   ∧ no_negation BinaryOperationMixin.concat_)
  ∧ forall x : value,
      exists op op' : string,
        UnaryOperationMixin.desc x = UnaryExpression x op
        ∧ UnaryOperationMixin.asc x = UnaryExpression x op'
        ∧ get_neg_operator op true = None
        ∧ get_neg_operator op' true = None.
Proof.
  split; [mixin_nodes|].
  intros x. do 2 eexists. repeat split; reflexivity.
Qed.

(** X11: the tiers of the operators the mixins build: 6 for [__mul__],
    [__div__] and [__mod__], 5 for the additions and subtractions, 3 for
    the comparisons and memberships ([__lshift__] builds IN, not a shift),
    2 for [between_], 0, the tier of OR, for [concat_], and -1, unknown to
    the table, for [like_], [ilike_] and [regexp_]. *)
Theorem mixin_tiers :
  (builds_tier BinaryOperationMixin.__mul__ 6
   ∧ builds_tier BinaryOperationMixin.__div__ 6
   ∧ builds_tier BinaryOperationMixin.__mod__ 6)
  ∧ (builds_tier BinaryOperationMixin.__add__ 5
     ∧ builds_tier BinaryOperationMixin.__radd__ 5
     ∧ builds_tier BinaryOperationMixin.__sub__ 5
     ∧ builds_tier BinaryOperationMixin.__rsub__ 5)
  ∧ (builds_tier BinaryOperationMixin.__eq__ 3
     ∧ builds_tier BinaryOperationMixin.__ne__ 3
     ∧ builds_tier BinaryOperationMixin.__gt__ 3
     ∧ builds_tier BinaryOperationMixin.__ge__ 3
     ∧ builds_tier BinaryOperationMixin.__lt__ 3
     ∧ builds_tier BinaryOperationMixin.__le__ 3
     ∧ builds_tier BinaryOperationMixin.in_ 3
     ∧ builds_tier BinaryOperationMixin.__lshift__ 3
     ∧ builds_tier BinaryOperationMixin.not_in_ 3
     ∧ builds_tier BinaryOperationMixin.is_ 3
     ∧ builds_tier BinaryOperationMixin.is_not_ 3)
  ∧ builds_tier BinaryOperationMixin.between_ 2
  ∧ builds_tier BinaryOperationMixin.concat_ 0
  ∧ (builds_tier BinaryOperationMixin.like_ (-1)
     ∧ builds_tier BinaryOperationMixin.ilike_ (-1)
     ∧ builds_tier BinaryOperationMixin.regexp_ (-1)).
Proof.
  repeat split; intros x v;
    try (destruct v; eexists; split; reflexivity);
    eexists; split; reflexivity.
Qed.

(** ** More on rendering *)

(** X12: the empty sequence renders to no pieces and no parameters, and a
    sequence made of two parts renders to the pieces of the first followed
    by those of the second, and likewise for the parameters. *)
Theorem get_sql_pieces_and_params_concat
    (get_sql_and_params : value -> option (string * list value))
    (str : value -> string) (exps exps' : list value)
    (coerce : value -> string) :
  get_sql_pieces_and_params get_sql_and_params str [] coerce = ([], [])
  ∧ get_sql_pieces_and_params get_sql_and_params str (exps ++ exps') coerce
    = (((get_sql_pieces_and_params get_sql_and_params str exps coerce).1
        ++ (get_sql_pieces_and_params get_sql_and_params str exps' coerce).1)%list,
       ((get_sql_pieces_and_params get_sql_and_params str exps coerce).2
        ++ (get_sql_pieces_and_params get_sql_and_params str exps' coerce).2)%list).
Proof.
  split; [reflexivity|].
  unfold get_sql_pieces_and_params. rewrite !pieces_loop_spec. simpl.
  by rewrite !map_app, concat_app.
Qed.

(** X13: when every element of the sequence has the method
    [get_sql_and_params], the result depends neither on [coerce] nor on
    [str]. *)
Theorem get_sql_pieces_and_params_expressions
    (get_sql_and_params : value -> option (string * list value))
    (str str' : value -> string) (exps : list value)
    (coerce coerce' : value -> string) :
  Forall (fun exp => is_Some (get_sql_and_params exp)) exps ->
  get_sql_pieces_and_params get_sql_and_params str exps coerce
  = get_sql_pieces_and_params get_sql_and_params str' exps coerce'.
Proof.
  intros Hexp. unfold get_sql_pieces_and_params. rewrite !pieces_loop_spec.
  simpl. f_equal. apply map_ext_Forall.
  eapply Forall_impl; [exact Hexp|].
  intros exp [r Hr]. unfold piece_of. by rewrite Hr.
Qed.

Lemma get_sql_pieces_and_params_expressions_witness :
  Forall (fun exp => is_Some (sample_render exp))
         [ BinaryOperationMixin.__eq__ (PyString "a") (PyInt 1);
           UnaryOperationMixin.desc (PyString "a") ]
  ∧ get_sql_pieces_and_params sample_render str_literal
      [ BinaryOperationMixin.__eq__ (PyString "a") (PyInt 1);
        UnaryOperationMixin.desc (PyString "a") ]
      str_literal
    = get_sql_pieces_and_params sample_render (fun _ => "?")
        [ BinaryOperationMixin.__eq__ (PyString "a") (PyInt 1);
          UnaryOperationMixin.desc (PyString "a") ]
        (fun _ => "%s").
Proof.
  assert (H : Forall (fun exp => is_Some (sample_render exp))
                [ BinaryOperationMixin.__eq__ (PyString "a") (PyInt 1);
                  UnaryOperationMixin.desc (PyString "a") ]).
  { repeat constructor; eexists; reflexivity. }
  split; [exact H|].
  exact (get_sql_pieces_and_params_expressions sample_render str_literal
           (fun _ => "?") _ str_literal (fun _ => "%s") H).
Defined.

(** ** [type_checker] *)

Example type_checker_ex :
  type_checker (VType TInt) (VInt 3) = true
  ∧ type_checker (VType TInt) (VBool true) = true
  ∧ type_checker (VType TBool) (VInt 1) = false
  ∧ type_checker (VType TInt) (VType TInt) = false
  ∧ type_checker (VList [VType TInt]) (VList [VInt 1; VInt 2]) = true
  ∧ type_checker (VList [VType TInt]) (VList [VInt 1; VStr "a"]) = false
  ∧ type_checker (VList [VType TInt]) (VTuple [VInt 1]) = false
  ∧ type_checker (VList []) (VList [VStr "a"]) = true
  ∧ type_checker (VTuple [VType TInt; VType TStr]) (VTuple [VInt 1; VStr "a"])
    = true
  ∧ type_checker (VTuple [VType TInt; VType TStr]) (VTuple [VInt 1]) = false
  ∧ type_checker (VDict [(VType TStr, VList [VType TInt])])
      (VDict [(VStr "a", VList [VInt 1]); (VStr "b", VList [])]) = true
  ∧ type_checker (VDict [(VType TStr, VType TInt)])
      (VDict [(VInt 1, VInt 1)]) = false
  ∧ type_checker (VInt 3) (VInt 3) = false.
Proof. repeat split; reflexivity. Qed.

Lemma pytype_eqb_eq (a b : pytype) : pytype_eqb a b = true <-> a = b.
Proof. destruct a, b; simpl; split; congruence. Qed.

Lemma pytype_eqb_refl (a : pytype) : pytype_eqb a a = true.
Proof. by destruct a. Qed.

Lemma isinstance_type_of (v : pyobj) :
  isinstance v (type_of v) = true ∧ isinstance v TObject = true.
Proof.
  unfold isinstance, issubclass. rewrite pytype_eqb_refl.
  split; [done|]. by destruct (type_of v).
Qed.

Lemma check_each_Forall2 (check : pyobj -> pyobj -> bool)
    (spec elems : list pyobj) :
  length spec = length elems ->
  check_each check spec elems = true <->
  Forall2 (fun s e => check s e = true) spec elems.
Proof.
  revert elems. induction spec as [|s spec IH]; intros [|e elems] Hlen;
    simpl in Hlen; try discriminate; simpl.
  - split; [constructor|done].
  - injection Hlen as Hlen. destruct (check s e) eqn:Hse; simpl.
    + rewrite (IH _ Hlen). split.
      * by constructor.
      * by inversion 1.
    + split; [done|]. inversion 1; congruence.
Qed.

Lemma forallb_true_Forall {A : Type} (f : A -> bool) (l : list A) :
  forallb f l = true <-> Forall (fun x => f x = true) l.
Proof.
  induction l as [|x l IH]; simpl.
  - split; [constructor|done].
  - rewrite andb_true_iff, IH. split.
    + intros [? ?]. by constructor.
    + by inversion 1.
Qed.

(** X14: checked against a class, a value passes exactly when it is an
    instance of the class, subclasses included; so every value passes
    against its own class and against [object], and a boolean passes against
    [int]. *)
Theorem type_checker_class (cls : pytype) (v : pyobj) :
  type_checker (VType cls) v = isinstance v cls
  ∧ type_checker (VType (type_of v)) v = true
  ∧ type_checker (VType TObject) v = true.
Proof.
  assert (H : forall c, type_checker (VType c) v = isinstance v c).
  { intros c. simpl. destruct (isinstance v c) eqn:Hi; [done|].
    destruct v; try done.
    (* both are classes: no case of the chain applies *)
    all: by destruct c. }
  rewrite !H. split; [done|]. apply isinstance_type_of.
Qed.

(** X15: checked against a tuple, a value passes exactly when it is a tuple
    of the same length whose elements pass, position by position, against
    the elements of the specification. *)
Theorem type_checker_tuple (spec : list pyobj) (v : pyobj) :
  type_checker (VTuple spec) v = true <->
  exists elems : list pyobj,
    v = VTuple elems
    ∧ Forall2 (fun s e => type_checker s e = true) spec elems.
Proof.
  split.
  - destruct v as [| | | | | |elems| |]; try done. simpl.
    destruct (length spec =? length elems)%nat eqn:Hlen; [|done].
    apply Nat.eqb_eq in Hlen. simpl. intros H.
    exists elems. split; [done|]. by apply check_each_Forall2.
  - intros (elems & -> & HF). simpl.
    pose proof (Forall2_length _ _ _ HF) as Hlen.
    rewrite (proj2 (Nat.eqb_eq _ _) Hlen). simpl.
    by apply check_each_Forall2.
Qed.

(** X16: checked against a list, a value passes exactly when it is a list
    whose elements all pass against the first element of the specification;
    the further elements of the specification are not read, and the empty
    specification lets every list pass. *)
Theorem type_checker_list (spec : list pyobj) (v : pyobj) :
  type_checker (VList spec) v = true <->
  exists elems : list pyobj,
    v = VList elems
    ∧ match spec with
      | [] => True
      | _t :: _ => Forall (fun e => type_checker _t e = true) elems
      end.
Proof.
  split.
  - destruct v as [| | | | |elems| | |]; try done.
    intros H. exists elems. split; [done|].
    destruct spec as [|_t spec]; [done|]. simpl in H.
    by apply forallb_true_Forall in H.
  - intros (elems & -> & HF). destruct spec as [|_t spec]; [done|]. simpl.
    by apply forallb_true_Forall.
Qed.

(** X17: checked against a dictionary, a value passes exactly when it is a
    dictionary whose keys all pass against the key of the first item of the
    specification and whose values all pass against its value; the empty
    specification lets every dictionary pass. *)
Theorem type_checker_dict (spec : list (pyobj * pyobj)) (v : pyobj) :
  type_checker (VDict spec) v = true <->
  exists entries : list (pyobj * pyobj),
    v = VDict entries
    ∧ match spec with
      | [] => True
      | (kt, vt) :: _ =>
          Forall (fun kv => type_checker kt kv.1 = true
                            ∧ type_checker vt kv.2 = true) entries
      end.
Proof.
  split.
  - destruct v as [| | | | | | |entries|]; try done.
    intros H. exists entries. split; [done|].
    destruct spec as [|[kt vt] spec]; [done|]. simpl in H.
    apply forallb_true_Forall in H. eapply Forall_impl; [exact H|].
    intros [k w] Hkw. simpl in *.
    destruct (type_checker kt k), (type_checker vt w); done.
  - intros (entries & -> & HF). destruct spec as [|[kt vt] spec]; [done|].
    simpl. apply forallb_true_Forall. eapply Forall_impl; [exact HF|].
    intros [k w] [Hk Hw]. simpl in *. by rewrite Hk, Hw.
Qed.

(** X18: a specification that is neither a class nor a list, a tuple or a
    dictionary lets nothing pass, not even itself; and against a list, a
    tuple or a dictionary only a value of exactly that class can pass. *)
Theorem type_checker_shape (type_ v : pyobj) :
  type_checker type_ v = true ->
  match type_ with
  | VType cls => isinstance v cls = true
  | VList _ | VTuple _ | VDict _ => type_of v = type_of type_
  | _ => False
  end.
Proof.
  destruct type_ as [| | | |cls|spec|spec|spec|]; try by destruct v.
  simpl. destruct (isinstance v cls); [done|].
  destruct v; try done. all: by destruct cls.
Qed.

Lemma type_checker_shape_witness :
  type_checker (VList [VType TInt]) (VList [VInt 1; VBool true]) = true
  ∧ type_of (VList [VInt 1; VBool true]) = type_of (VList [VType TInt]).
Proof.
  assert (H : type_checker (VList [VType TInt]) (VList [VInt 1; VBool true])
              = true) by reflexivity.
  split; [exact H|].
  exact (type_checker_shape (VList [VType TInt]) (VList [VInt 1; VBool true]) H).
Defined.

(** ** The cached properties *)

Example cached_property_ex :
  cached_property.__get__
    (cached_property.__init__ (counting_function "total") None) (Some ∅)
  = cached_property.Value (VInt 1)
      (<["total" := VInt 1]> (<["calls" := VInt 1]> ∅))
  ∧ readonly_cached_property object_setattr (counting_function "total") ∅
    = (Some (VInt 1), <["_total" := VInt 1]> (<["calls" := VInt 1]> ∅)).
Proof. split; reflexivity. Qed.

Example parse_execute_sql_ex :
  parse_execute_sql _ pair sample_match "  SELECT * FROM t"
  = Return ("select", "t")
  ∧ parse_execute_sql _ pair sample_match "drop table t"
    = Raise "SQL command drop is not yet supported".
Proof. split; reflexivity. Qed.

(** X19: after [__get__] on an instance, the value it returned is stored
    under the name of the property; and unless that value is [missing],
    every later [__get__] returns it again and leaves the instance as it is,
    whatever the function of the property would compute. *)
Theorem cached_property_caches (self : cached_property.t)
    (obj obj' : gmap string pyobj) (v : pyobj) :
  cached_property.__get__ self (Some obj) = cached_property.Value v obj' ->
  obj' !! cached_property.__name__ self = Some v
  ∧ (is_same_missing v missing = false ->
     forall func' : pyfunction,
       cached_property.__get__
         {| cached_property.__name__ := cached_property.__name__ self;
            cached_property.func := func' |} (Some obj')
       = cached_property.Value v obj').
Proof.
  unfold cached_property.__get__.
  destruct (obj !! cached_property.__name__ self) as [x|] eqn:Hx; simpl.
  - destruct (is_same_missing x missing) eqn:Hm.
    + destruct (func_call _ obj) as [w o]. intros [= <- <-].
      rewrite lookup_insert_eq. split; [done|]. simpl. by intros ->.
    + intros [= <- <-]. rewrite Hx. split; [done|]. simpl. by rewrite Hm.
  - destruct (func_call _ obj) as [w o]. intros [= <- <-].
    rewrite lookup_insert_eq. split; [done|]. simpl. by intros ->.
Qed.

Lemma cached_property_caches_witness :
  cached_property.__get__
    (cached_property.__init__ (counting_function "total") None) (Some ∅)
  = cached_property.Value (VInt 1)
      (<["total" := VInt 1]> (<["calls" := VInt 1]> ∅))
  ∧ (<["total" := VInt 1]> (<["calls" := VInt 1]> ∅) : gmap string pyobj)
      !! "total" = Some (VInt 1)
  ∧ cached_property.__get__
      (cached_property.__init__ (counting_function "total") None)
      (Some (<["total" := VInt 1]> (<["calls" := VInt 1]> ∅)))
    = cached_property.Value (VInt 1)
        (<["total" := VInt 1]> (<["calls" := VInt 1]> ∅)).
Proof.
  assert (H : cached_property.__get__
                (cached_property.__init__ (counting_function "total") None)
                (Some ∅)
              = cached_property.Value (VInt 1)
                  (<["total" := VInt 1]> (<["calls" := VInt 1]> ∅)))
    by reflexivity.
  destruct (cached_property_caches _ _ _ _ H) as [H1 H2].
  split; [exact H|]. split; [exact H1|].
  exact (H2 eq_refl (counting_function "total")).
Defined.

(** X20: a value other than [missing] stored with [__set__] is what the
    next [__get__] returns; the function of the property is not called. *)
Theorem cached_property_set_get (self : cached_property.t)
    (obj : gmap string pyobj) (x : pyobj) :
  is_same_missing x missing = false ->
  cached_property.__get__ self (Some (cached_property.__set__ self obj x))
  = cached_property.Value x (cached_property.__set__ self obj x).
Proof.
  intros Hx. unfold cached_property.__get__, cached_property.__set__.
  rewrite lookup_insert_eq. simpl. by rewrite Hx.
Qed.

Lemma cached_property_set_get_witness :
  is_same_missing (VStr "set") missing = false
  ∧ cached_property.__get__
      (cached_property.__init__ (counting_function "total") None)
      (Some (cached_property.__set__
               (cached_property.__init__ (counting_function "total") None)
               ∅ (VStr "set")))
    = cached_property.Value (VStr "set")
        (cached_property.__set__
           (cached_property.__init__ (counting_function "total") None)
           ∅ (VStr "set")).
Proof.
  assert (H : is_same_missing (VStr "set") missing = false) by reflexivity.
  split; [exact H|].
  exact (cached_property_set_get
           (cached_property.__init__ (counting_function "total") None)
           ∅ (VStr "set") H).
Defined.

(** X21: the cache is tested with [is], not with [==].  When the stored
    value is an instance of [Missing], which [Missing.__eq__] finds equal to
    [missing], [__get__] calls the function and stores its value only if
    the instance is [missing] itself; any other instance is returned as the
    cached value. *)
Theorem cached_property_missing (self : cached_property.t)
    (obj : gmap string pyobj) (i : positive) :
  obj !! cached_property.__name__ self = Some (VMissing i) ->
  Missing.__eq__ missing (VMissing i) = true
  ∧ cached_property.__get__ self (Some obj)
    = if Pos.eqb i 1
      then
        let '(value, obj) := func_call (cached_property.func self) obj in
        cached_property.Value value
          (<[cached_property.__name__ self := value]> obj)
      else cached_property.Value (VMissing i) obj.
Proof.
  intros Hi. split; [reflexivity|].
  unfold cached_property.__get__. rewrite Hi. simpl.
  by destruct (Pos.eqb i 1).
Qed.

Lemma cached_property_missing_witness :
  (<["total" := VMissing 2]> ∅ : gmap string pyobj) !! "total"
  = Some (VMissing 2)
  ∧ Missing.__eq__ missing (VMissing 2) = true
  ∧ cached_property.__get__
      (cached_property.__init__ (counting_function "total") None)
      (Some (<["total" := VMissing 2]> ∅))
    = cached_property.Value (VMissing 2) (<["total" := VMissing 2]> ∅).
Proof.
  assert (H : (<["total" := VMissing 2]> ∅ : gmap string pyobj)
                !! cached_property.__name__
                     (cached_property.__init__ (counting_function "total") None)
              = Some (VMissing 2))
    by reflexivity.
  split; [exact H|].
  exact (cached_property_missing
           (cached_property.__init__ (counting_function "total") None)
           (<["total" := VMissing 2]> ∅) 2 H).
Defined.

Lemma readonly_cached_property_hit
    (setattr : gmap string pyobj -> string -> pyobj -> gmap string pyobj)
    (func : pyfunction) (self : gmap string pyobj) (x : pyobj) :
  self !! ("_" +:+ func_name func) = Some x ->
  readonly_cached_property setattr func self = (Some x, self).
Proof. intros Hx. unfold readonly_cached_property. by rewrite !Hx. Qed.

Lemma readonly_cached_property_miss
    (setattr : gmap string pyobj -> string -> pyobj -> gmap string pyobj)
    (func : pyfunction) (self : gmap string pyobj) :
  self !! ("_" +:+ func_name func) = None ->
  readonly_cached_property setattr func self
  = (setattr (func_call func self).2 ("_" +:+ func_name func)
       (func_call func self).1 !! ("_" +:+ func_name func),
     setattr (func_call func self).2 ("_" +:+ func_name func)
       (func_call func self).1).
Proof.
  intros Hx. unfold readonly_cached_property. rewrite Hx.
  by destruct (func_call func self).
Qed.

(** X22: whatever [setattr] does, a value found in the [__dict__] under the
    name of the function with an underscore in front, [missing] included,
    is returned without a call of the function or of [setattr]; when the
    getter returns a value, that value is in the [__dict__] under that name
    afterwards, and every later call returns it again and leaves the
    [__dict__] as it is, whatever the function would compute; and the final
    subscript fails exactly when the name is not in the [__dict__] before
    the call and still not in it after [setattr]. *)
Theorem readonly_cached_property_caches
    (setattr : gmap string pyobj -> string -> pyobj -> gmap string pyobj)
    (func : pyfunction) (self : gmap string pyobj) :
  (forall x : pyobj,
     self !! ("_" +:+ func_name func) = Some x ->
     readonly_cached_property setattr func self = (Some x, self))
  ∧ (forall (v : pyobj) (self' : gmap string pyobj),
       readonly_cached_property setattr func self = (Some v, self') ->
       self' !! ("_" +:+ func_name func) = Some v
       ∧ forall (setattr' : gmap string pyobj -> string -> pyobj
                            -> gmap string pyobj) (func' : pyfunction),
           func_name func' = func_name func ->
           readonly_cached_property setattr' func' self' = (Some v, self'))
  ∧ ((readonly_cached_property setattr func self).1 = None <->
     self !! ("_" +:+ func_name func) = None
     ∧ setattr (func_call func self).2 ("_" +:+ func_name func)
         (func_call func self).1 !! ("_" +:+ func_name func) = None).
Proof.
  split; [intros x; apply readonly_cached_property_hit|].
  split.
  - intros v self' Hget.
    assert (Hv : self' !! ("_" +:+ func_name func) = Some v).
    { destruct (self !! ("_" +:+ func_name func)) as [x|] eqn:Hx.
      - rewrite (readonly_cached_property_hit _ _ _ _ Hx) in Hget.
        by injection Hget as -> ->.
      - rewrite (readonly_cached_property_miss _ _ _ Hx) in Hget.
        by injection Hget as Hv <-. }
    split; [exact Hv|]. intros setattr' func' Hname.
    apply readonly_cached_property_hit. by rewrite Hname.
  - destruct (self !! ("_" +:+ func_name func)) as [x|] eqn:Hx.
    + rewrite (readonly_cached_property_hit _ _ _ _ Hx). simpl.
      split; [done|]. by intros [? _].
    + rewrite (readonly_cached_property_miss _ _ _ Hx). simpl.
      split; [by intros ->|]. by intros [_ ->].
Qed.

Lemma readonly_cached_property_caches_witness :
  readonly_cached_property object_setattr (counting_function "total") ∅
  = (Some (VInt 1), <["_total" := VInt 1]> (<["calls" := VInt 1]> ∅))
  ∧ (<["_total" := VInt 1]> (<["calls" := VInt 1]> ∅) : gmap string pyobj)
      !! ("_" +:+ func_name (counting_function "total")) = Some (VInt 1)
  ∧ readonly_cached_property slot_setattr (counting_function "total")
      (<["_total" := VInt 1]> (<["calls" := VInt 1]> ∅))
    = (Some (VInt 1), <["_total" := VInt 1]> (<["calls" := VInt 1]> ∅)).
Proof.
  assert (H : readonly_cached_property object_setattr
                (counting_function "total") ∅
              = (Some (VInt 1),
                 <["_total" := VInt 1]> (<["calls" := VInt 1]> ∅)))
    by reflexivity.
  destruct (readonly_cached_property_caches object_setattr
              (counting_function "total") ∅) as (_ & Hcache & _).
  destruct (Hcache _ _ H) as [Hv Hlater].
  split; [exact H|]. split; [exact Hv|].
  exact (Hlater slot_setattr (counting_function "total") eq_refl).
Defined.

(** With a [setattr] that keeps the value out of the [__dict__] the final
    subscript fails, and the function is called again on the next access. *)
Example readonly_cached_property_ex :
  readonly_cached_property slot_setattr (counting_function "total") ∅
  = (None, <["calls" := VInt 1]> ∅)
  ∧ readonly_cached_property slot_setattr (counting_function "total")
      (<["calls" := VInt 1]> ∅)
    = (None, <["calls" := VInt 2]> ∅)
  ∧ readonly_cached_property object_setattr (counting_function "total")
      (<["_total" := missing]> ∅)
    = (Some missing, <["_total" := missing]> ∅).
Proof. repeat split; reflexivity. Qed.

(** ** [parse_execute_sql] *)

Lemma has_space_lower (s : string) :
  PyStr.has_space (PyStr.lower s) = PyStr.has_space s.
Proof.
  induction s as [|c s IH]; simpl; [done|].
  by rewrite isspace_lower_char, IH.
Qed.

Lemma lstrip_pad (ws s : string) :
  PyStr.all_space ws = true -> PyStr.lstrip (ws +:+ s) = PyStr.lstrip s.
Proof. intros Hws. by rewrite lstrip_app, Hws. Qed.

Section ParseExecuteSqlFacts.

Variable regex : Type.
Variable re_compile : string -> list re_flag -> regex.
Variable re_match_table : regex -> string -> option string.

Lemma SQL_PATTERNS_keys (cmd : string) (pattern : regex) :
  SQL_PATTERNS regex re_compile !! cmd = Some pattern ->
  cmd ∈ ["select"; "insert"; "update"; "replace"; "delete"].
Proof.
  unfold SQL_PATTERNS. rewrite dict_of_items_lookup.
  - intros Hin. apply (list_elem_of_fmap_2 fst) in Hin. exact Hin.
  - apply (bool_decide_unpack _). vm_compute. reflexivity.
Qed.

Lemma SQL_PATTERNS_keys_plain (cmd : string) :
  cmd ∈ ["select"; "insert"; "update"; "replace"; "delete"] ->
  PyStr.has_space cmd = false ∧ cmd ≠ EmptyString.
Proof.
  rewrite !list_elem_of_In. cbn [In].
  intros H. repeat (destruct H as [<-|H]; [by split|]). destruct H.
Qed.

(** X23: whitespace in front of the statement changes nothing. *)
Theorem parse_execute_sql_leading_space (ws sql : string) :
  PyStr.all_space ws = true ->
  parse_execute_sql regex re_compile re_match_table (ws +:+ sql)
  = parse_execute_sql regex re_compile re_match_table sql.
Proof.
  intros Hws. unfold parse_execute_sql. by rewrite lstrip_pad.
Qed.

(** X24: when a command and a table are returned, the command is one of
    select, insert, update, replace and delete, it is the lower-case form
    of what the statement, without its leading whitespace, has before its
    first space, and the table is what the pattern of that command matched
    in the statement without its leading whitespace. *)
Theorem parse_execute_sql_return (sql cmd table : string) :
  parse_execute_sql regex re_compile re_match_table sql = Return (cmd, table) ->
  cmd ∈ ["select"; "insert"; "update"; "replace"; "delete"]
  ∧ cmd = PyStr.lower (PyStr.split_space_head (PyStr.lstrip sql))
  ∧ exists pattern : regex,
      SQL_PATTERNS regex re_compile !! cmd = Some pattern
      ∧ re_match_table pattern (PyStr.lstrip sql) = Some table.
Proof.
  unfold parse_execute_sql.
  destruct (SQL_PATTERNS regex re_compile !! _) as [pattern|] eqn:Hpat;
    [|done].
  destruct (re_match_table pattern _) as [t|] eqn:Hm; [|done].
  intros [= <- <-]. split; [by eapply SQL_PATTERNS_keys|].
  split; [done|]. by exists pattern.
Qed.

(** X25: the command ends at the first space only.  A statement that has
    some other whitespace before its first space, such as a newline right
    after the keyword, or that is blank, is refused as a command that is
    not supported, whatever the patterns would match. *)
Theorem parse_execute_sql_not_supported (sql : string) :
  PyStr.has_space (PyStr.split_space_head (PyStr.lstrip sql)) = true
  ∨ PyStr.split_space_head (PyStr.lstrip sql) = EmptyString ->
  parse_execute_sql regex re_compile re_match_table sql
  = Raise ("SQL command "
           +:+ PyStr.lower (PyStr.split_space_head (PyStr.lstrip sql))
           +:+ " is not yet supported").
Proof.
  unfold parse_execute_sql.
  set (head := PyStr.split_space_head (PyStr.lstrip sql)). intros Hhead.
  destruct (SQL_PATTERNS regex re_compile !! PyStr.lower head)
    as [pattern|] eqn:Hpat; [|done].
  apply SQL_PATTERNS_keys, SQL_PATTERNS_keys_plain in Hpat as [Hsp Hne].
  rewrite has_space_lower in Hsp.
  destruct Hhead as [Hhead|Hhead]; [congruence|].
  rewrite Hhead in Hne. done.
Qed.

End ParseExecuteSqlFacts.

Lemma parse_execute_sql_leading_space_witness :
  PyStr.all_space "
  " = true
  ∧ parse_execute_sql _ pair sample_match ("
  " +:+ "delete from t")
    = parse_execute_sql _ pair sample_match "delete from t".
Proof.
  assert (H : PyStr.all_space "
  " = true) by reflexivity.
  split; [exact H|].
  exact (parse_execute_sql_leading_space _ pair sample_match _ "delete from t" H).
Defined.

Lemma parse_execute_sql_return_witness :
  parse_execute_sql _ pair sample_match " Insert INTO t VALUES (1)"
  = Return ("insert", "t")
  ∧ "insert" ∈ ["select"; "insert"; "update"; "replace"; "delete"]
  ∧ "insert"
    = PyStr.lower (PyStr.split_space_head
                     (PyStr.lstrip " Insert INTO t VALUES (1)"))
  ∧ exists pattern : string * list re_flag,
      SQL_PATTERNS _ pair !! "insert" = Some pattern
      ∧ sample_match pattern (PyStr.lstrip " Insert INTO t VALUES (1)")
        = Some "t".
Proof.
  assert (H : parse_execute_sql _ pair sample_match " Insert INTO t VALUES (1)"
              = Return ("insert", "t")) by reflexivity.
  split; [exact H|].
  exact (parse_execute_sql_return _ pair sample_match _ _ _ H).
Defined.

Lemma parse_execute_sql_not_supported_witness :
  (PyStr.has_space (PyStr.split_space_head (PyStr.lstrip "SELECT
* FROM t")) = true
   ∨ PyStr.split_space_head (PyStr.lstrip "SELECT
* FROM t") = EmptyString)
  ∧ parse_execute_sql _ pair sample_match "SELECT
* FROM t"
    = Raise ("SQL command " +:+ PyStr.lower (PyStr.split_space_head
                                               (PyStr.lstrip "SELECT
* FROM t"))
             +:+ " is not yet supported").
Proof.
  assert (H : PyStr.has_space (PyStr.split_space_head (PyStr.lstrip "SELECT
* FROM t")) = true
   ∨ PyStr.split_space_head (PyStr.lstrip "SELECT
* FROM t") = EmptyString) by (left; reflexivity).
  split; [exact H|].
  exact (parse_execute_sql_not_supported _ pair sample_match _ H).
Defined.
